(** * otelmiddleware: the tracing middleware of [tracing.go]

    A shallow embedding of [src/otelmiddleware/tracing.go] and the proofs of
    the properties its specification states.

    The middleware is orchestration code: almost every line is a call into a
    collaborator (the tracer, the span, the propagators, the otel globals, the
    response-writer wrapper and the downstream handler).  A function body is
    therefore embedded as a finite tree of collaborator calls ([Prog]); a run
    ([exec]) feeds that tree with the answers of an arbitrary environment
    ([oracle]) and returns the outcome together with the ordered list of the
    calls the middleware made.  A call may answer with a panic, and
    [defer] is modelled with Go's unwinding rule. *)

From Stdlib Require Import String Ascii List ZArith Bool Lia.
Import ListNotations.
Local Open Scope string_scope.
Local Open Scope list_scope.

Set Implicit Arguments.

(** ** Panics and results *)

(** The values the modelled code can panic with. *)
Inductive PanicValue : Type :=
| SliceBoundsOutOfRange (lo len : nat)  (* runtime error: slice bounds out of range [lo:len] *)
| NilDereference                        (* runtime error: invalid memory address or nil pointer dereference *)
| Raised (v : string).                  (* a panic raised inside a collaborator *)

(** What a call gives back: its result, or a panic. *)
Inductive Reply (R : Type) : Type :=
| Returns (r : R)
| Panics (v : PanicValue).
Arguments Panics {R} v.

(** ** Go strings

    A Go string is a sequence of bytes, which is what [string] is here. *)

(** [s[lo:]]: panics when [lo] exceeds [len(s)]. *)
Definition slice_from (lo : nat) (s : string) : Reply string :=
  if (lo <=? String.length s)%nat
  then Returns (substring lo (String.length s - lo) s)
  else Panics (SliceBoundsOutOfRange lo (String.length s)).

(** tracing.go:127-129 *)
Definition extractRoute (uri : string) : Reply string :=
  slice_from 1 uri.

(** tracing.go:27-28 *)
Definition version : string := "0.1.0".

(** The instrumentation name handed to [otel.Tracer] (tracing.go:53). *)
Definition instrumentationName : string :=
  "github.com/vincentfree/opentelemetry/otelmiddleware".

(** ** The collaborators' types

    The values of the imported packages are opaque to the middleware: it only
    stores them and hands them back.  [KeyValue] is [attribute.KeyValue]. *)
Class OtelTypes : Type := {
  GoContext : Type;           (* context.Context, never nil *)
  Tracer : Type;              (* a non-nil trace.Tracer *)
  Propagator : Type;          (* a non-nil propagation.TextMapPropagator *)
  Span : Type;                (* a non-nil trace.Span *)
  KeyValue : Type;            (* attribute.KeyValue *)
  Header : Type;              (* the contents of an http.Header map *)
  ResponseWriter : Type;      (* http.ResponseWriter *)
  WrapResponseWriter : Type;  (* the wrapper NewWrapResponseWriter returns *)
  Handler : Type;             (* http.Handler *)
  RequestRest : Type          (* the fields of http.Request the middleware never reads itself *)
}.

Section Types.
Context {T : OtelTypes}.

(** The fields of [*http.Request] the middleware touches. *)
Record Request : Type := mkRequest {
  Method : string;
  Proto : string;
  ProtoMajor : Z;
  Host : string;
  RequestURI : string;
  ReqHeader : Header;
  ReqContext : GoContext;
  ReqRest : RequestRest
}.

(** [r.WithContext(ctx)]: a shallow copy of [r] carrying [ctx]. *)
Definition WithContext (r : Request) (ctx : GoContext) : Request :=
  mkRequest (Method r) (Proto r) (ProtoMajor r) (Host r) (RequestURI r)
            (ReqHeader r) ctx (ReqRest r).

(** The request after a propagator has written into its header map.  The map
    is shared by every copy of the request, so the write is seen through
    [r.Header]. *)
Definition withHeader (r : Request) (h : Header) : Request :=
  mkRequest (Method r) (Proto r) (ProtoMajor r) (Host r) (RequestURI r)
            h (ReqContext r) (ReqRest r).

Inductive SpanKind : Type := SpanKindServer.

(** [trace.SpanStartOption], as far as the middleware builds them. *)
Inductive SpanStartOption : Type :=
| trace_WithAttributes (kvs : list KeyValue)
| trace_WithSpanKind (k : SpanKind).

(** tracing.go:34-40.  A nil interface value is [None]; a nil slice is []. *)
Record traceConfig : Type := mkConfig {
  serviceName : string;
  tracer : option Tracer;
  propagator : option Propagator;
  attributes : list KeyValue
}.

(** [&traceConfig{}] *)
Definition emptyConfig : traceConfig := mkConfig "" None None [].

(** tracing.go:30-32.  A func value may be nil. *)
Definition TraceOption : Type := option (traceConfig -> traceConfig).

(** tracing.go:131-136 *)
Definition WithTracer (tracer0 : option Tracer) : TraceOption :=
  Some (fun c => mkConfig (serviceName c) tracer0 (propagator c) (attributes c)).

(** tracing.go:138-143 *)
Definition WithPropagator (p : option Propagator) : TraceOption :=
  Some (fun c => mkConfig (serviceName c) (tracer c) p (attributes c)).

(** tracing.go:145-150 *)
Definition WithServiceName (serviceName0 : string) : TraceOption :=
  Some (fun c => mkConfig serviceName0 (tracer c) (propagator c) (attributes c)).

(** tracing.go:152-158 *)
Definition WithAttributes (attributes0 : list KeyValue) : TraceOption :=
  Some (fun c => mkConfig (serviceName c) (tracer c) (propagator c) attributes0).

(** ** Calls into the collaborators

    [Call R] is a call whose result has type [R].  [CInject] answers with the
    header map as the propagator left it. *)
Inductive Call : Type -> Type :=
| COtelTracer (name instrumentationVersion : string) : Call Tracer
| CGetTextMapPropagator : Call Propagator
| CExtract (p : Propagator) (ctx : GoContext) (carrier : Header) : Call GoContext
| CInject (p : Propagator) (ctx : GoContext) (carrier : Header) : Call Header
| CStart (t : Tracer) (ctx : GoContext) (spanName : string)
         (opts : list SpanStartOption) : Call (GoContext * Span)
| CEnd (s : Span) : Call unit
| CIsRecording (s : Span) : Call bool
| CSetAttributes (s : Span) (kvs : list KeyValue) : Call unit
| CNewWrapResponseWriter (w : ResponseWriter) (protoMajor : Z) : Call WrapResponseWriter
| CStatus (w : WrapResponseWriter) : Call Z
| CServeHTTP (next : Handler) (w : WrapResponseWriter) (r : Request) : Call unit.

(** ** Function bodies *)
Inductive Prog (A : Type) : Type :=
| Ret (a : A)
| Panic (v : PanicValue)
| Vis (R : Type) (c : Call R) (k : R -> Prog A)
| Defer (c : Call unit) (k : Prog A).
Arguments Panic {A} v.
Arguments Vis {A R} c k.

Fixpoint bind {A B : Type} (p : Prog A) (f : A -> Prog B) : Prog B :=
  match p with
  | Ret a => f a
  | Panic v => Panic v
  | Vis c k => Vis c (fun r => bind (k r) f)
  | Defer c k => Defer c (bind k f)
  end.

Definition call {R : Type} (c : Call R) : Prog R := Vis c (fun r => Ret r).

Definition lift {A : Type} (x : Reply A) : Prog A :=
  match x with
  | Returns a => Ret a
  | Panics v => Panic v
  end.

(** Using an interface value: a method call on nil panics. *)
Definition deref {A : Type} (x : option A) : Prog A :=
  match x with
  | Some a => Ret a
  | None => Panic NilDereference
  end.

End Types.

Arguments Ret {T A} a.
Arguments Panic {T A} v.
Arguments Vis {T A R} c k.
Arguments Defer {T A} c k.

Declare Scope prog_scope.
Delimit Scope prog_scope with prog.
Notation "x <- p ;; q" := (bind p (fun x => q))
  (at level 61, p at next level, right associativity) : prog_scope.
Notation "' pat <- p ;; q" := (bind p (fun x => match x with pat => q end))
  (at level 61, pat pattern, p at next level, right associativity) : prog_scope.
Notation "'defer' c ;; q" := (Defer c q)
  (at level 61, c at next level, right associativity) : prog_scope.
Local Open Scope prog_scope.

(** ** The semantic-convention helpers

    [semconv] is an imported package: its functions are taken as they come.
    They read the request only. *)
Class Semconv {T : OtelTypes} : Type := {
  NetAttributesFromHTTPRequest : string -> Request -> list KeyValue;
  EndUserAttributesFromHTTPRequest : Request -> list KeyValue;
  HTTPServerAttributesFromHTTPRequest : string -> string -> Request -> list KeyValue;
  HTTPClientAttributesFromHTTPRequest : Request -> list KeyValue;
  TelemetrySDKLanguageGo : KeyValue;
  HTTPAttributesFromHTTPStatusCode : Z -> list KeyValue
}.

Section Middleware.
Context {T : OtelTypes} {SC : Semconv}.

(** ** The middleware *)

(** tracing.go:72-80, with [route] the value of [extractRoute(r.RequestURI)]. *)
Definition standardOptions (r : Request) (route : string) : list SpanStartOption :=
  [ trace_WithAttributes (NetAttributesFromHTTPRequest "tcp" r);
    trace_WithAttributes (EndUserAttributesFromHTTPRequest r);
    trace_WithAttributes (HTTPServerAttributesFromHTTPRequest (Host r) route r);
    trace_WithAttributes (HTTPClientAttributesFromHTTPRequest r);
    trace_WithAttributes [TelemetrySDKLanguageGo];
    trace_WithSpanKind SpanKindServer ].

(** tracing.go:81-84 *)
Definition withConfigured (config : traceConfig) (opts : list SpanStartOption)
  : list SpanStartOption :=
  if (0 <? List.length (attributes config))%nat
  then opts ++ [trace_WithAttributes (attributes config)]
  else opts.

(** tracing.go:87-93, with [spanName] the value of [extractRoute(r.RequestURI)]. *)
Definition nameSpan (r : Request) (spanName : string) : string :=
  let spanName :=
    if (spanName =? "")%string
    then (Proto r ++ " " ++ Method r ++ " /")%string
    else spanName in
  (Method r ++ " /" ++ spanName)%string.

(** tracing.go:67-115, the handler [fn]. *)
Definition fn (config : traceConfig) (next : Handler)
              (w : ResponseWriter) (r : Request) : Prog unit :=
  let requestCtx := ReqContext r in
  p <- deref (propagator config) ;;
  ctx <- call (CExtract p requestCtx (ReqHeader r)) ;;
  route <- lift (extractRoute (RequestURI r)) ;;
  let opts := standardOptions r route in
  let opts := withConfigured config opts in
  spanName <- lift (extractRoute (RequestURI r)) ;;
  let spanName := nameSpan r spanName in
  t <- deref (tracer config) ;;
  '(ctx, span) <- call (CStart t ctx spanName opts) ;;
  defer (CEnd span) ;;
  let r := WithContext r ctx in
  let carrier := ReqHeader r in
  g <- call CGetTextMapPropagator ;;
  carrier <- call (CInject g ctx carrier) ;;
  let r := withHeader r carrier in
  wrapperRes <- call (CNewWrapResponseWriter w (ProtoMajor r)) ;;
  _ <- call (CServeHTTP next wrapperRes r) ;;
  recording <- call (CIsRecording span) ;;
  if recording : bool then
    status <- call (CStatus wrapperRes) ;;
    call (CSetAttributes span (HTTPAttributesFromHTTPStatusCode status))
  else Ret tt.

(** tracing.go:47-50 *)
Fixpoint applyOptions (opt : list TraceOption) (config : traceConfig)
  : Prog traceConfig :=
  match opt with
  | [] => Ret config
  | None :: _ => Panic NilDereference
  | Some o :: rest => applyOptions rest (o config)
  end.

(** tracing.go:51-54 *)
Definition defaultTracer (config : traceConfig) : Prog traceConfig :=
  match tracer config with
  | None =>
      t <- call (COtelTracer instrumentationName version) ;;
      Ret (mkConfig (serviceName config) (Some t) (propagator config) (attributes config))
  | Some _ => Ret config
  end.

(** tracing.go:55-58 *)
Definition defaultPropagator (config : traceConfig) : Prog traceConfig :=
  match propagator config with
  | None =>
      g <- call CGetTextMapPropagator ;;
      Ret (mkConfig (serviceName config) (tracer config) (Some g) (attributes config))
  | Some _ => Ret config
  end.

(** tracing.go:59-62 *)
Definition defaultServiceName (config : traceConfig) : traceConfig :=
  if (serviceName config =? "")%string
  then mkConfig "TracedApplication" (tracer config) (propagator config) (attributes config)
  else config.

(** tracing.go:44-62: the configuration the returned closure captures. *)
Definition newConfig (opt : list TraceOption) : Prog traceConfig :=
  config <- applyOptions opt emptyConfig ;;
  config <- defaultTracer config ;;
  config <- defaultPropagator config ;;
  Ret (defaultServiceName config).

(** An [http.HandlerFunc]. *)
Definition HandlerFunc : Type := ResponseWriter -> Request -> Prog unit.

(** tracing.go:43-119 *)
Definition TraceWithOptions (opt : list TraceOption) : Prog (Handler -> HandlerFunc) :=
  config <- newConfig opt ;;
  Ret (fun next => fn config next).

(** tracing.go:121-124 *)
Definition Trace (next : Handler) : Prog HandlerFunc :=
  wrap <- TraceWithOptions [] ;;
  Ret (wrap next).

(** ** Runs *)

(** One call the middleware made, with the answer it got. *)
Inductive Event : Type :=
| Ev (R : Type) (c : Call R) (rep : Reply R).

Section Exec.
Variable W : Type.
Variable oracle : forall R : Type, Call R -> W -> Reply R * W.

(** Function exit: the deferred calls run last-in first-out, whether the body
    returned or panicked; a deferred call that panics replaces the outcome. *)
Fixpoint unwind {A : Type} (defers : list (Call unit)) (out : Reply A) (w : W)
  : Reply A * W * list Event :=
  match defers with
  | [] => (out, w, [])
  | c :: rest =>
      let (rep, w1) := oracle c w in
      let out1 := match rep with
                  | Returns _ => out
                  | Panics v => Panics v
                  end in
      let '(out2, w2, log) := unwind rest out1 w1 in
      (out2, w2, Ev c rep :: log)
  end.

(** A run of a function body from world [w] with [defers] already scheduled:
    the outcome, the world it leaves and the calls made, in order. *)
Fixpoint exec {A : Type} (p : Prog A) (defers : list (Call unit)) (w : W)
  : Reply A * W * list Event :=
  match p with
  | Ret a => unwind defers (Returns a) w
  | Panic v => unwind defers (Panics v) w
  | Vis c k =>
      let (rep, w1) := oracle c w in
      match rep with
      | Returns r =>
          let '(out, w2, log) := exec (k r) defers w1 in
          (out, w2, Ev c rep :: log)
      | Panics v =>
          let '(out, w2, log) := unwind defers (Panics v) w1 in
          (out, w2, Ev c rep :: log)
      end
  | Defer c k => exec k (c :: defers) w
  end.

Definition run {A : Type} (p : Prog A) (w : W) : Reply A * W * list Event :=
  exec p [] w.

Definition outcome {A : Type} (x : Reply A * W * list Event) : Reply A := fst (fst x).
Definition world {A : Type} (x : Reply A * W * list Event) : W := snd (fst x).
Definition trace {A : Type} (x : Reply A * W * list Event) : list Event := snd x.

End Exec.

(** ** Reading a trace *)

Definition pick {X : Type} (f : forall R : Type, Call R -> Reply R -> list X)
                (log : list Event) : list X :=
  flat_map (fun e => match e with Ev c rep => f _ c rep end) log.

(** The arguments of every [tracer.Start] call. *)
Definition startCalls : list Event -> list (Tracer * GoContext * string * list SpanStartOption) :=
  pick (fun R c _ => match c with
                     | CStart t ctx name opts => [(t, ctx, name, opts)]
                     | _ => []
                     end).

(** The spans [tracer.Start] returned. *)
Definition startedSpans : list Event -> list Span :=
  pick (fun R c =>
          match c in Call R0 return Reply R0 -> list Span with
          | CStart _ _ _ _ => fun rep => match rep with
                                         | Returns (_, s) => [s]
                                         | Panics _ => []
                                         end
          | _ => fun _ => []
          end).

(** The spans [End] was called on. *)
Definition endCalls : list Event -> list Span :=
  pick (fun R c _ => match c with CEnd s => [s] | _ => [] end).

Definition extractCalls : list Event -> list (Propagator * GoContext * Header) :=
  pick (fun R c _ => match c with CExtract p ctx h => [(p, ctx, h)] | _ => [] end).

Definition injectCalls : list Event -> list (Propagator * GoContext * Header) :=
  pick (fun R c _ => match c with CInject p ctx h => [(p, ctx, h)] | _ => [] end).

(** What [otel.GetTextMapPropagator()] returned. *)
Definition globalPropagators : list Event -> list Propagator :=
  pick (fun R c =>
          match c in Call R0 return Reply R0 -> list Propagator with
          | CGetTextMapPropagator => fun rep => match rep with
                                                | Returns g => [g]
                                                | Panics _ => []
                                                end
          | _ => fun _ => []
          end).

(** The [otel.Tracer] calls with the tracers they returned. *)
Definition otelTracers : list Event -> list (string * string * Tracer) :=
  pick (fun R c =>
          match c in Call R0 return Reply R0 -> list (string * string * Tracer) with
          | COtelTracer n v => fun rep => match rep with
                                          | Returns t => [(n, v, t)]
                                          | Panics _ => []
                                          end
          | _ => fun _ => []
          end).

Definition setAttributesCalls : list Event -> list (Span * list KeyValue) :=
  pick (fun R c _ => match c with CSetAttributes s kvs => [(s, kvs)] | _ => [] end).

(** The answers of [span.IsRecording()]. *)
Definition recordingReplies : list Event -> list (Span * bool) :=
  pick (fun R c =>
          match c in Call R0 return Reply R0 -> list (Span * bool) with
          | CIsRecording s => fun rep => match rep with
                                         | Returns b => [(s, b)]
                                         | Panics _ => []
                                         end
          | _ => fun _ => []
          end).

(** The answers of [wrapperRes.Status()]. *)
Definition statusReplies : list Event -> list (WrapResponseWriter * Z) :=
  pick (fun R c =>
          match c in Call R0 return Reply R0 -> list (WrapResponseWriter * Z) with
          | CStatus w => fun rep => match rep with
                                    | Returns z => [(w, z)]
                                    | Panics _ => []
                                    end
          | _ => fun _ => []
          end).

(** The [next.ServeHTTP] calls, with how each came back. *)
Definition serveCalls : list Event -> list (Handler * WrapResponseWriter * Request * Reply unit) :=
  pick (fun R c =>
          match c in Call R0 return Reply R0 -> list (Handler * WrapResponseWriter * Request * Reply unit) with
          | CServeHTTP n w r => fun rep => [(n, w, r, rep)]
          | _ => fun _ => []
          end).

(** The wrappers [NewWrapResponseWriter] returned. *)
Definition wrappers : list Event -> list (ResponseWriter * Z * WrapResponseWriter) :=
  pick (fun R c =>
          match c in Call R0 return Reply R0 -> list (ResponseWriter * Z * WrapResponseWriter) with
          | CNewWrapResponseWriter w m => fun rep => match rep with
                                                     | Returns x => [(w, m, x)]
                                                     | Panics _ => []
                                                     end
          | _ => fun _ => []
          end).

End Middleware.

(** ** A concrete environment

    A small tracing backend to run the middleware on: spans are numbered,
    propagators and tracers are named, a context is the number of spans
    it carries, and the downstream handler either leaves a status code in the
    wrapper or panics. *)
Module Demo.

Inductive AttrValue : Type :=
| STRING (s : string)
| INT64 (z : Z).

#[export] Instance types : OtelTypes := {|
  GoContext := nat;
  Tracer := string;
  Propagator := string;
  Span := nat;
  KeyValue := string * AttrValue;
  Header := list (string * string);
  ResponseWriter := unit;
  WrapResponseWriter := nat;
  Handler := string;
  RequestRest := unit
|}.

Definition nonEmpty (key value : string) : list (string * AttrValue) :=
  if (value =? "")%string then [] else [(key, STRING value)].

#[export] Instance semconv : Semconv := {|
  NetAttributesFromHTTPRequest := fun network _ => [("net.transport", STRING network)];
  EndUserAttributesFromHTTPRequest := fun _ => [];
  HTTPServerAttributesFromHTTPRequest := fun serverName route r =>
    [("http.method", STRING (Method r)); ("http.target", STRING (RequestURI r))]
      ++ nonEmpty "http.server_name" serverName
      ++ nonEmpty "http.route" route;
  HTTPClientAttributesFromHTTPRequest := fun _ => [];
  TelemetrySDKLanguageGo := ("telemetry.sdk.language", STRING "go");
  HTTPAttributesFromHTTPStatusCode := fun code => [("http.status_code", INT64 code)]
|}.

Record World : Type := mkWorld {
  nextSpan : nat;               (* the number of the next span *)
  recording : bool;             (* what IsRecording answers *)
  downstream : Reply Z;         (* the status the handler leaves, or its panic *)
  globalPropagator : string     (* what otel.GetTextMapPropagator() returns *)
}.

Definition oracle (R : Type) (c : Call R) (w : World) : Reply R * World :=
  match c in Call R0 return Reply R0 * World with
  | COtelTracer name v => (Returns (name ++ "@" ++ v)%string, w)
  | CGetTextMapPropagator => (Returns (globalPropagator w), w)
  | CExtract _ ctx _ => (Returns ctx, w)
  | CInject p _ carrier => (Returns (("traceparent", p) :: carrier), w)
  | CStart _ ctx _ _ =>
      (Returns (S ctx, nextSpan w),
       mkWorld (S (nextSpan w)) (recording w) (downstream w) (globalPropagator w))
  | CEnd _ => (Returns tt, w)
  | CIsRecording _ => (Returns (recording w), w)
  | CSetAttributes _ _ => (Returns tt, w)
  | CNewWrapResponseWriter _ _ => (Returns 0%nat, w)
  | CStatus _ =>
      (Returns match downstream w with Returns z => z | Panics _ => 0%Z end, w)
  | CServeHTTP _ _ _ =>
      (match downstream w with Returns _ => Returns tt | Panics v => Panics v end, w)
  end.

Definition request (method uri : string) : Request :=
  mkRequest method "HTTP/1.1" 1 "example.org" uri [] 0%nat tt.

(** The configuration [TraceWithOptions()] builds in this environment. *)
Definition config : traceConfig :=
  mkConfig "TracedApplication"
           (Some "github.com/vincentfree/opentelemetry/otelmiddleware@0.1.0")
           (Some "global") [].

(** A configuration with a propagator and a service name of its own. *)
Definition custom : traceConfig :=
  mkConfig "shop"
           (Some "github.com/vincentfree/opentelemetry/otelmiddleware@0.1.0")
           (Some "b3") [].

Definition quiet : World := mkWorld 7 true (Returns 200%Z) "global".
Definition failing : World := mkWorld 7 true (Panics (Raised "boom")) "global".
Definition notRecording : World := mkWorld 7 false (Returns 404%Z) "global".

(** The handler of configuration [c] serving [r] in world [w]. *)
Definition handled (c : traceConfig) (r : Request) (w : World)
  : Reply unit * World * list Event :=
  run oracle (fn c "next" tt r) w.

(** The handler [TraceWithOptions(opt...)(next)] serving [r], construction and
    request both in world [w]: the outcome and the calls of the request. *)
Definition serve (opt : list TraceOption) (r : Request) (w : World)
  : Reply unit * list Event :=
  match run oracle (TraceWithOptions opt) w with
  | (Returns wrap, w1, _) =>
      let x := run oracle (wrap "next" tt r) w1 in (outcome x, trace x)
  | (Panics v, _, log) => (Panics v, log)
  end.

End Demo.

(** * Properties *)

(** ** Strings and [extractRoute] *)

Lemma substring_whole (s : string) : substring 0 (String.length s) s = s.
Proof.
  induction s as [|c s IH]; simpl; [reflexivity | now rewrite IH].
Qed.

Lemma append_length (s t : string) :
  String.length (s ++ t)%string = (String.length s + String.length t)%nat.
Proof.
  induction s as [|c s IH]; simpl; [reflexivity | now rewrite IH].
Qed.

Lemma extractRoute_nonempty (c : ascii) (rest : string) :
  extractRoute (String c rest) = Returns rest.
Proof.
  unfold extractRoute, slice_from. simpl.
  rewrite Nat.sub_0_r. now rewrite substring_whole.
Qed.

Lemma extractRoute_empty : extractRoute "" = Panics (SliceBoundsOutOfRange 1 0).
Proof. reflexivity. Qed.

Lemma extractRoute_Returns (uri route : string) :
  extractRoute uri = Returns route -> exists c, uri = String c route.
Proof.
  destruct uri as [|c rest]; [discriminate|].
  rewrite extractRoute_nonempty. intros [= <-]. now exists c.
Qed.

Lemma extractRoute_Panics (uri : string) (v : PanicValue) :
  extractRoute uri = Panics v -> uri = "" /\ v = SliceBoundsOutOfRange 1 0.
Proof.
  destruct uri as [|c rest]; [now intros [= <-]|].
  rewrite extractRoute_nonempty. discriminate.
Qed.

(** A prefixed string is never the string itself. *)
Lemma prefixed_differs (method rest : string) :
  (method ++ " /" ++ rest)%string <> rest.
Proof.
  intros H. apply (f_equal String.length) in H.
  rewrite !append_length in H. simpl in H. lia.
Qed.

Section Properties.
Context {T : OtelTypes} {SC : Semconv}.
Variable W : Type.
Variable oracle : forall R : Type, Call R -> W -> Reply R * W.

Local Arguments nameSpan : simpl never.
Local Arguments standardOptions : simpl never.
Local Arguments withConfigured : simpl never.
Local Arguments extractRoute : simpl never.

(** The name a [tracer.Start] call was given. *)
Definition startName (c : Tracer * GoContext * string * list SpanStartOption) : string :=
  snd (fst c).

(** The options a [tracer.Start] call was given. *)
Definition startOptions (c : Tracer * GoContext * string * list SpanStartOption)
  : list SpanStartOption :=
  snd c.

(** Proof steps over a run: [ask] splits on the answer to the next call,
    [crack] on the value the body branches on next. *)
Ltac ask :=
  match goal with
  | |- context [@oracle ?R ?c ?w] =>
      let rep := fresh "rep" in
      let w1 := fresh "w" in
      let E := fresh "E" in
      destruct (@oracle R c w) as [rep w1] eqn:E; destruct rep; cbn
  end.

Ltac crack :=
  match goal with
  | |- context [extractRoute ?u] =>
      let E := fresh "Route" in destruct (extractRoute u) eqn:E; cbn
  | |- context [match ?x with (_, _) => _ end] => is_var x; destruct x; cbn
  | |- context [if ?b then _ else _] => is_var b; destruct b; cbn
  end.

Ltac walk := repeat (ask || crack).

(** Opening a run of the handler: the two interface values of the
    configuration are nil or not. *)
Ltac enter config :=
  unfold run, fn;
  destruct (propagator config) as [?p|] eqn:?Hp;
  destruct (tracer config) as [?t|] eqn:?Ht; cbn.

(** The handler calls [tracer.Start] at most once, after [Extract] returned
    and with a non-empty request URI; the name and the options are those
    of tracing.go:72-93. *)
Lemma fn_start (config : traceConfig) (next : Handler) (w : ResponseWriter)
      (r : Request) (w0 : W) :
  let x := run oracle (fn config next w r) w0 in
  startCalls (trace x) = [] \/
  exists t ctx c route,
    tracer config = Some t /\ RequestURI r = String c route /\
    startCalls (trace x) =
      [(t, ctx, nameSpan r route, withConfigured config (standardOptions r route))].
Proof.
  enter config; walk; try (left; reflexivity);
    right; apply extractRoute_Returns in Route as [c ->];
    repeat eexists; reflexivity.
Qed.

(** With both interface values set, [Extract] returning and a non-empty
    URI, the handler does reach [tracer.Start]. *)
Lemma fn_reaches_start (config : traceConfig) (next : Handler) (w : ResponseWriter)
      (r : Request) (w0 w1 : W) p t ctx c route :
  propagator config = Some p -> tracer config = Some t ->
  oracle (CExtract p (ReqContext r) (ReqHeader r)) w0 = (Returns ctx, w1) ->
  RequestURI r = String c route ->
  startCalls (trace (run oracle (fn config next w r) w0)) =
    [(t, ctx, nameSpan r route, withConfigured config (standardOptions r route))].
Proof.
  intros Hp Ht HE Hu. unfold run, fn. rewrite Hp, Ht, Hu, extractRoute_nonempty. cbn.
  rewrite HE. cbn. walk; reflexivity.
Qed.

Lemma nameSpan_empty (r : Request) :
  nameSpan r "" = (Method r ++ " /" ++ Proto r ++ " " ++ Method r ++ " /")%string.
Proof. reflexivity. Qed.

Lemma nameSpan_nonempty (r : Request) (route : string) :
  route <> "" -> nameSpan r route = (Method r ++ " /" ++ route)%string.
Proof. destruct route; [congruence | reflexivity]. Qed.

Lemma standard_in_withConfigured (config : traceConfig) (opts : list SpanStartOption)
      (o : SpanStartOption) :
  In o opts -> In o (withConfigured config opts).
Proof.
  intros H. unfold withConfigured.
  destruct (0 <? _)%nat; [apply in_or_app; now left | exact H].
Qed.

(** C1 (the code as it is): for a request to "/" every span the handler
    starts is named "<method> /<protocol> <method> /", the fallback name with
    the method prefix put in front of it once more, which is never the
    "<protocol> <method> /" of the specification; for a request to "/foo/bar"
    the span is named "<method> /foo/bar". *)
Theorem span_name_of_root_and_path :
  forall (config : traceConfig) (next : Handler) (w : ResponseWriter)
         (r : Request) (w0 : W),
    let x := run oracle (fn config next w r) w0 in
    (RequestURI r = "/" ->
     Forall (fun c => startName c =
                      (Method r ++ " /" ++ Proto r ++ " " ++ Method r ++ " /")%string)
            (startCalls (trace x)) /\
     (Method r ++ " /" ++ Proto r ++ " " ++ Method r ++ " /")%string
       <> (Proto r ++ " " ++ Method r ++ " /")%string) /\
    (RequestURI r = "/foo/bar" ->
     Forall (fun c => startName c = (Method r ++ " /foo/bar")%string)
            (startCalls (trace x))).
Proof.
  intros config next w r w0 x.
  destruct (fn_start config next w r w0) as [H | (t & ctx & c & route & _ & Hu & H)];
    fold x in H; rewrite H.
  - split; intros _; [split|]; auto using prefixed_differs.
  - split; intros E; rewrite E in Hu; injection Hu as <- <-.
    + split; [|apply prefixed_differs].
      constructor; [reflexivity | constructor].
    + constructor; [reflexivity | constructor].
Qed.

(** C9: [extractRoute] returns the suffix after the first byte of every
    non-empty string and panics on the empty one (slice bounds out of range
    [1:0]); a request with an empty RequestURI makes the handler panic, with no
    span started and none ended, and with that runtime error whenever
    [Extract] returned. *)
Theorem extractRoute_partial :
  (forall uri : string, (1 <= String.length uri)%nat ->
     exists c rest, uri = String c rest /\ extractRoute uri = Returns rest) /\
  extractRoute "" = Panics (SliceBoundsOutOfRange 1 0) /\
  (forall (config : traceConfig) (next : Handler) (w : ResponseWriter)
          (r : Request) (w0 : W),
     RequestURI r = "" ->
     let x := run oracle (fn config next w r) w0 in
     (exists v, outcome x = Panics v) /\
     startCalls (trace x) = [] /\ endCalls (trace x) = [] /\
     (forall p ctx w1,
        propagator config = Some p ->
        oracle (CExtract p (ReqContext r) (ReqHeader r)) w0 = (Returns ctx, w1) ->
        outcome x = Panics (SliceBoundsOutOfRange 1 0))).
Proof.
  split; [|split].
  - intros [|c rest] H; [simpl in H; lia|].
    exists c, rest. split; [reflexivity | apply extractRoute_nonempty].
  - reflexivity.
  - intros config next w r w0 Hu. enter config; rewrite ?Hu, ?extractRoute_empty; cbn;
      try ask; cbn; repeat split; eauto; try discriminate;
      intros q ctx w2 [= <-] HE; rewrite HE in *; congruence.
Qed.

(** C10: the span name and the route come from the whole RequestURI: for a
    URI that is [c] followed by [path?query], a handler with a tracer and a
    propagator whose [Extract] returned starts exactly one span, named
    "<method> /path?query", with the attributes
    [semconv.HTTPServerAttributesFromHTTPRequest] makes of the route
    "path?query" as its third option; no run starts a span under another
    name or route; and the span carries the route attribute that function
    makes of a non-empty route. *)
Theorem query_string_in_span_name_and_route :
  forall (config : traceConfig) (next : Handler) (w : ResponseWriter)
         (r : Request) (w0 : W) (c : ascii) (path query : string),
    RequestURI r = String c (path ++ "?" ++ query) ->
    let x := run oracle (fn config next w r) w0 in
    let route := (path ++ "?" ++ query)%string in
    (forall p t ctx w1,
       propagator config = Some p -> tracer config = Some t ->
       oracle (CExtract p (ReqContext r) (ReqHeader r)) w0 = (Returns ctx, w1) ->
       startCalls (trace x) =
         [(t, ctx, (Method r ++ " /" ++ path ++ "?" ++ query)%string,
           withConfigured config (standardOptions r route))]) /\
    Forall (fun s =>
              startName s = (Method r ++ " /" ++ path ++ "?" ++ query)%string /\
              startOptions s = withConfigured config (standardOptions r route) /\
              nth_error (startOptions s) 2 =
                Some (trace_WithAttributes
                        (HTTPServerAttributesFromHTTPRequest (Host r) route r)))
           (startCalls (trace x)) /\
    (forall routeAttribute : string -> KeyValue,
       (forall serverName route0 req, route0 <> "" ->
          In (routeAttribute route0)
             (HTTPServerAttributesFromHTTPRequest serverName route0 req)) ->
       Forall (fun s => exists kvs,
                 In (trace_WithAttributes kvs) (startOptions s) /\
                 In (routeAttribute route) kvs)
              (startCalls (trace x))).
Proof.
  intros config next w r w0 c path query Hu x route.
  assert (Hne : route <> "").
  { intros E. apply (f_equal String.length) in E. unfold route in E.
    rewrite !append_length in E. simpl in E. lia. }
  assert (Hname : nameSpan r route
                  = (Method r ++ " /" ++ path ++ "?" ++ query)%string)
    by now apply nameSpan_nonempty.
  assert (Hthird : nth_error (withConfigured config (standardOptions r route)) 2 =
                   Some (trace_WithAttributes
                           (HTTPServerAttributesFromHTTPRequest (Host r) route r))).
  { unfold withConfigured. destruct (0 <? _)%nat; reflexivity. }
  split; [|split].
  - intros p t ctx w1 Hp Ht HE. rewrite <- Hname.
    eapply fn_reaches_start; eassumption.
  - destruct (fn_start config next w r w0) as [H | (t & ctx & c' & route' & _ & Hu' & H)];
      fold x in H; rewrite H; [constructor|].
    rewrite Hu in Hu'. injection Hu' as <- <-.
    constructor; [|constructor]. unfold startName, startOptions. simpl.
    split; [exact Hname | split; [reflexivity | exact Hthird]].
  - intros routeAttribute Hsem.
    destruct (fn_start config next w r w0) as [H | (t & ctx & c' & route' & _ & Hu' & H)];
      fold x in H; rewrite H; [constructor|].
    rewrite Hu in Hu'. injection Hu' as <- <-.
    constructor; [|constructor]. unfold startOptions. simpl.
    eexists. split; [exact (nth_error_In _ _ Hthird) | now apply Hsem].
Qed.

(** The last call of a trace. *)
Definition lastEvent (log : list Event) : option Event :=
  last (map Some log) None.

(** The calls made after [next.ServeHTTP] returned, if it did. *)
Fixpoint afterServe (log : list Event) : option (list Event) :=
  match log with
  | [] => None
  | Ev c rep :: rest =>
      match c in Call R0 return Reply R0 -> option (list Event) with
      | CServeHTTP _ _ _ => fun rep0 => match rep0 with
                                        | Returns _ => Some rest
                                        | Panics _ => None
                                        end
      | _ => fun _ => afterServe rest
      end rep
  end.

Ltac units := repeat match goal with u : unit |- _ => destruct u end.

(** C4: in every run of the handler, [End] is called on exactly the spans
    [tracer.Start] returned, of which there is at most one, and that call is
    the last thing the handler does; when the downstream handler panics, the
    call after the panicking [ServeHTTP] is that [End], and only then does
    the handler leave with the panic (or with the one [End] itself raised). *)
Theorem span_ended_exactly_once :
  forall (config : traceConfig) (next : Handler) (w : ResponseWriter)
         (r : Request) (w0 : W),
    let x := run oracle (fn config next w r) w0 in
    endCalls (trace x) = startedSpans (trace x) /\
    (List.length (startedSpans (trace x)) <= 1)%nat /\
    (forall s, In s (startedSpans (trace x)) ->
       exists rep, lastEvent (trace x) = Some (Ev (CEnd s) rep)) /\
    (forall n wr r' v, In (n, wr, r', Panics v) (serveCalls (trace x)) ->
       exists s rep,
         startedSpans (trace x) = [s] /\
         lastEvent (removelast (trace x)) = Some (Ev (CServeHTTP n wr r') (Panics v)) /\
         lastEvent (trace x) = Some (Ev (CEnd s) rep) /\
         outcome x = match rep with
                     | Returns _ => Panics v
                     | Panics v' => Panics v'
                     end).
Proof.
  intros config next w r w0. enter config; walk; units;
    (split; [reflexivity|]); (split; [simpl; lia|]);
    (split; [intros ? Hs; simpl in Hs; intuition subst; eexists; reflexivity|]);
    intros ? ? ? ? Hs; simpl in Hs; intuition (try discriminate);
    match goal with H : (_, _, _, _) = _ |- _ => injection H as <- <- <- <- end;
    do 2 eexists; repeat split.
Qed.

(** C6: once [next.ServeHTTP] has returned, the handler asks the span it
    started whether it is recording; on [true] it reads the status of the
    wrapper it handed downstream and calls [SetAttributes] once, with the
    attributes [semconv] makes of that status code; on [false] it calls
    neither and goes straight to [End].  When the downstream handler did
    not return, no attribute is set. *)
Theorem status_attribute_iff_recording :
  forall (config : traceConfig) (next : Handler) (w : ResponseWriter)
         (r : Request) (w0 : W),
    let x := run oracle (fn config next w r) w0 in
    match afterServe (trace x) with
    | None => setAttributesCalls (trace x) = []
    | Some post =>
        exists s wr r',
          startedSpans (trace x) = [s] /\
          wrappers (trace x) = [(w, ProtoMajor r, wr)] /\
          serveCalls (trace x) = [(next, wr, r', Returns tt)] /\
          ((exists code repSet repEnd,
              post = [Ev (CIsRecording s) (Returns true);
                      Ev (CStatus wr) (Returns code);
                      Ev (CSetAttributes s (HTTPAttributesFromHTTPStatusCode code)) repSet;
                      Ev (CEnd s) repEnd] /\
              setAttributesCalls (trace x) =
                [(s, HTTPAttributesFromHTTPStatusCode code)]) \/
           (exists repEnd,
              post = [Ev (CIsRecording s) (Returns false); Ev (CEnd s) repEnd] /\
              setAttributesCalls (trace x) = [] /\ statusReplies (trace x) = []) \/
           (exists v repEnd,
              post = [Ev (CIsRecording s) (Panics v); Ev (CEnd s) repEnd] /\
              setAttributesCalls (trace x) = []) \/
           (exists v repEnd,
              post = [Ev (CIsRecording s) (Returns true);
                      Ev (CStatus wr) (Panics v); Ev (CEnd s) repEnd] /\
              setAttributesCalls (trace x) = []))
    end.
Proof.
  intros config next w r w0. enter config; walk; units; try reflexivity;
    do 3 eexists; (split; [reflexivity|]); (split; [reflexivity|]);
    (split; [reflexivity|]);
    solve [ left; repeat esplit
          | right; left; repeat esplit
          | right; right; left; repeat esplit
          | right; right; right; repeat esplit ].
Qed.

(** The propagators of a request: [Extract] is the first call, on the
    propagator of the configuration, with the context and the headers of the
    request; every [Inject] is on the propagator [otel.GetTextMapPropagator()]
    has just returned, with the context [tracer.Start] returned and the
    headers of the request. *)
Lemma fn_propagators (config : traceConfig) (next : Handler) (w : ResponseWriter)
      (r : Request) (w0 : W) :
  let x := run oracle (fn config next w r) w0 in
  extractCalls (trace x) =
    match propagator config with
    | Some p => [(p, ReqContext r, ReqHeader r)]
    | None => []
    end /\
  map (fun c => fst (fst c)) (injectCalls (trace x)) = globalPropagators (trace x) /\
  Forall (fun c => snd c = ReqHeader r) (injectCalls (trace x)).
Proof.
  enter config; walk; repeat split; repeat constructor.
Qed.

(** With a tracer and a propagator set, a non-empty URI and collaborators
    that do not panic before, the handler does inject. *)
Lemma fn_reaches_inject (config : traceConfig) (next : Handler) (w : ResponseWriter)
      (r : Request) (w0 w1 w2 w3 : W) p t ctx ctx1 span g c route :
  propagator config = Some p -> tracer config = Some t ->
  RequestURI r = String c route ->
  oracle (CExtract p (ReqContext r) (ReqHeader r)) w0 = (Returns ctx, w1) ->
  oracle (CStart t ctx (nameSpan r route)
                 (withConfigured config (standardOptions r route))) w1
    = (Returns (ctx1, span), w2) ->
  oracle CGetTextMapPropagator w2 = (Returns g, w3) ->
  injectCalls (trace (run oracle (fn config next w r) w0)) = [(g, ctx1, ReqHeader r)].
Proof.
  intros Hp Ht Hu HE HS HG. unfold run, fn.
  rewrite Hp, Ht, Hu, extractRoute_nonempty. cbn.
  rewrite HE. cbn. rewrite HS. cbn. rewrite HG. cbn. walk; reflexivity.
Qed.

End Properties.

(** ** Options and construction *)

Section Construction.
Context {T : OtelTypes} {SC : Semconv}.
Variable W : Type.
Variable oracle : forall R : Type, Call R -> W -> Reply R * W.

(** A call of one of the four exported option constructors. *)
Inductive Setting : Type :=
| SetTracer (t : option Tracer)
| SetPropagator (p : option Propagator)
| SetServiceName (name : string)
| SetAttributes (kvs : list KeyValue).

Definition option_of (s : Setting) : TraceOption :=
  match s with
  | SetTracer t => WithTracer t
  | SetPropagator p => WithPropagator p
  | SetServiceName name => WithServiceName name
  | SetAttributes kvs => WithAttributes kvs
  end.

Definition tracerSetting (s : Setting) : option (option Tracer) :=
  match s with SetTracer t => Some t | _ => None end.
Definition propagatorSetting (s : Setting) : option (option Propagator) :=
  match s with SetPropagator p => Some p | _ => None end.
Definition serviceNameSetting (s : Setting) : option string :=
  match s with SetServiceName n => Some n | _ => None end.
Definition attributesSetting (s : Setting) : option (list KeyValue) :=
  match s with SetAttributes a => Some a | _ => None end.

(** Two settings of the same field. *)
Definition sameField (s1 s2 : Setting) : bool :=
  match s1, s2 with
  | SetTracer _, SetTracer _ => true
  | SetPropagator _, SetPropagator _ => true
  | SetServiceName _, SetServiceName _ => true
  | SetAttributes _, SetAttributes _ => true
  | _, _ => false
  end.

(** The argument of the last setting of a field in a list, if there is one. *)
Fixpoint lastSetting {A : Type} (sel : Setting -> option A) (l : list Setting)
  : option A :=
  match l with
  | [] => None
  | s :: rest =>
      match lastSetting sel rest with
      | Some a => Some a
      | None => sel s
      end
  end.

(** The propagator the options configure: the argument of the last
    [WithPropagator], unless that is nil. *)
Definition configuredPropagator (l : list Setting) : option Propagator :=
  match lastSetting propagatorSetting l with
  | Some (Some p) => Some p
  | _ => None
  end.

(** What [o(config)] leaves in the configuration, for a non-nil [o]. *)
Definition effect (o : TraceOption) (c : traceConfig) : traceConfig :=
  match o with
  | Some f => f c
  | None => c
  end.

(** The configuration after the loop of tracing.go:48-50. *)
Definition applied (opt : list TraceOption) (c : traceConfig) : traceConfig :=
  fold_left (fun c o => effect o c) opt c.

(** tracing.go:51-62 *)
Definition finish (config : traceConfig) : Prog traceConfig :=
  config <- defaultTracer config ;;
  config <- defaultPropagator config ;;
  Ret (defaultServiceName config).

Definition mapReply {A B : Type} (f : A -> B) (x : Reply A) : Reply B :=
  match x with
  | Returns a => Returns (f a)
  | Panics v => Panics v
  end.

Definition mapRun {A B : Type} (f : A -> B) (x : Reply A * W * list Event)
  : Reply B * W * list Event :=
  (mapReply f (outcome x), world x, trace x).

(** From the specification's words: the zero-configuration entry point is the
    middleware with all defaults, that is the default tracer of the fixed
    library name and version, the global propagator, the placeholder service
    name and no static attributes. *)
Definition Trace_spec (next : Handler) : Prog HandlerFunc :=
  t <- call (COtelTracer "github.com/vincentfree/opentelemetry/otelmiddleware" "0.1.0") ;;
  g <- call CGetTextMapPropagator ;;
  Ret (fn (mkConfig "TracedApplication" (Some t) (Some g) []) next).

Ltac ask :=
  match goal with
  | |- context [@oracle ?R ?c ?w] =>
      let rep := fresh "rep" in
      let w1 := fresh "w" in
      let E := fresh "E" in
      destruct (@oracle R c w) as [rep w1] eqn:E; destruct rep; cbn
  end.

Lemma config_eq (c1 c2 : traceConfig) :
  serviceName c1 = serviceName c2 -> tracer c1 = tracer c2 ->
  propagator c1 = propagator c2 -> attributes c1 = attributes c2 -> c1 = c2.
Proof. destruct c1, c2; simpl; intros; subst; reflexivity. Qed.

Lemma applied_app (l1 l2 : list TraceOption) (c : traceConfig) :
  applied (l1 ++ l2) c = applied l2 (applied l1 c).
Proof. apply fold_left_app. Qed.

Lemma applyOptions_applied (opt : list TraceOption) (c : traceConfig) :
  Forall (fun o => o <> None) opt -> applyOptions opt c = Ret (applied opt c).
Proof.
  intros H. revert c. induction H as [|[f|] opt Hf _ IH]; intros c;
    [reflexivity | apply IH | congruence].
Qed.

Lemma option_of_not_nil (l : list Setting) :
  Forall (fun o => o <> None) (map option_of l).
Proof.
  induction l as [|[] l IH]; constructor; try exact IH; discriminate.
Qed.

Lemma newConfig_finish (opt : list TraceOption) :
  Forall (fun o => o <> None) opt ->
  newConfig opt = finish (applied opt emptyConfig).
Proof.
  intros H. unfold newConfig. now rewrite applyOptions_applied.
Qed.

(** A nil option makes the construction panic before anything is called. *)
Lemma newConfig_nil_option (before after : list TraceOption) (w0 : W) :
  Forall (fun o => o <> None) before ->
  run oracle (newConfig (before ++ None :: after)) w0 = (Panics NilDereference, w0, []).
Proof.
  intros H. unfold newConfig.
  assert (E : forall c, applyOptions (before ++ None :: after) c = Panic NilDereference).
  { induction H as [|[f|] l Hf _ IH]; intros c; simpl; auto; congruence. }
  now rewrite E.
Qed.

Lemma lastSetting_app {A : Type} (sel : Setting -> option A) (l1 l2 : list Setting) :
  lastSetting sel (l1 ++ l2) =
    match lastSetting sel l2 with
    | Some a => Some a
    | None => lastSetting sel l1
    end.
Proof.
  induction l1 as [|s l1 IH]; simpl.
  - now destruct (lastSetting sel l2).
  - rewrite IH. now destruct (lastSetting sel l2).
Qed.

(** A field of the configuration after the options: what the last setting of
    that field gave, or what it was before. *)
Lemma applied_field {A : Type} (get : traceConfig -> A) (sel : Setting -> option A) :
  (forall s c, get (effect (option_of s) c) =
               match sel s with Some a => a | None => get c end) ->
  forall l c, get (applied (map option_of l) c) =
              match lastSetting sel l with Some a => a | None => get c end.
Proof.
  intros Hsel l. induction l as [|s l IH]; intros c; simpl; [reflexivity|].
  unfold applied in *. rewrite IH.
  destruct (lastSetting sel l); [reflexivity | apply Hsel].
Qed.

Lemma applied_tracer l c :
  tracer (applied (map option_of l) c) =
    match lastSetting tracerSetting l with Some a => a | None => tracer c end.
Proof. apply applied_field. now intros []. Qed.

Lemma applied_propagator l c :
  propagator (applied (map option_of l) c) =
    match lastSetting propagatorSetting l with Some a => a | None => propagator c end.
Proof. apply applied_field. now intros []. Qed.

Lemma applied_serviceName l c :
  serviceName (applied (map option_of l) c) =
    match lastSetting serviceNameSetting l with Some a => a | None => serviceName c end.
Proof. apply applied_field. now intros []. Qed.

Lemma applied_attributes l c :
  attributes (applied (map option_of l) c) =
    match lastSetting attributesSetting l with Some a => a | None => attributes c end.
Proof. apply applied_field. now intros []. Qed.

(** An earlier setting of a field that is set again later changes nothing. *)
Lemma lastSetting_overridden {A : Type} (sel : Setting -> option A)
      (s1 s2 : Setting) (before between after : list Setting) :
  (sel s2 = None -> sel s1 = None) ->
  lastSetting sel (before ++ s1 :: between ++ s2 :: after) =
  lastSetting sel (before ++ between ++ s2 :: after).
Proof.
  intros Hsel. rewrite !lastSetting_app. simpl. rewrite !lastSetting_app. simpl.
  destruct (lastSetting sel after); [reflexivity|].
  destruct (sel s2) eqn:E2; [reflexivity|].
  destruct (lastSetting sel between); [reflexivity|].
  now rewrite (Hsel eq_refl).
Qed.

Lemma applied_overridden (s1 s2 : Setting) (before between after : list Setting)
      (c : traceConfig) :
  sameField s1 s2 = true ->
  applied (map option_of (before ++ s1 :: between ++ s2 :: after)) c =
  applied (map option_of (before ++ between ++ s2 :: after)) c.
Proof.
  intros Hsame.
  apply config_eq;
    rewrite ?applied_serviceName, ?applied_tracer, ?applied_propagator,
            ?applied_attributes;
    (rewrite (@lastSetting_overridden _ _ s1 s2);
     [reflexivity | destruct s1, s2; simpl in *; congruence]).
Qed.

(** A setting of another field leaves a field as it is. *)
Lemma lastSetting_skip {A : Type} (sel : Setting -> option A) (s : Setting)
      (before after : list Setting) :
  sel s = None ->
  lastSetting sel (before ++ s :: after) = lastSetting sel (before ++ after).
Proof.
  intros E. rewrite !lastSetting_app. simpl. rewrite E.
  now destruct (lastSetting sel after).
Qed.

(** Mapping the result of a body changes neither its calls nor the world. *)
Lemma unwind_map {A B : Type} (f : A -> B) (ds : list (Call unit)) (o : Reply A) (w : W) :
  unwind oracle ds (mapReply f o) w = mapRun f (unwind oracle ds o w).
Proof.
  revert o w. induction ds as [|c ds IH]; intros o w; simpl; [reflexivity|].
  destruct (oracle c w) as [rep w1].
  replace (match rep with Returns _ => mapReply f o | Panics v => Panics v end)
    with (mapReply f (match rep with Returns _ => o | Panics v => Panics v end))
    by now destruct rep.
  rewrite IH. now destruct (unwind oracle ds _ w1) as [[o2 w2] l2].
Qed.

Lemma exec_map {A B : Type} (f : A -> B) (p : Prog A) (ds : list (Call unit)) (w : W) :
  exec oracle (bind p (fun a => Ret (f a))) ds w = mapRun f (exec oracle p ds w).
Proof.
  revert ds w. induction p as [a|v|R c k IH|c k IH]; intros ds w; simpl.
  - apply (unwind_map f ds (Returns a)).
  - apply (unwind_map f ds (Panics v)).
  - destruct (oracle c w) as [[r|v] w1].
    + rewrite IH. now destruct (exec oracle (k r) ds w1) as [[o2 w2] l2].
    + rewrite (unwind_map f ds (Panics v)).
      now destruct (unwind oracle ds (Panics v) w1) as [[o2 w2] l2].
  - apply IH.
Qed.

Lemma run_TraceWithOptions (opt : list TraceOption) (w0 : W) :
  run oracle (TraceWithOptions opt) w0 =
  mapRun (fun config next => fn config next) (run oracle (newConfig opt) w0).
Proof. apply exec_map. Qed.

Lemma run_Trace (next : Handler) (w0 : W) :
  run oracle (Trace next) w0 =
  mapRun (fun wrap : Handler -> HandlerFunc => wrap next)
         (run oracle (TraceWithOptions []) w0).
Proof. apply exec_map. Qed.

(** The run of tracing.go:51-62 from the configuration the options left. *)
Lemma finish_run (c0 : traceConfig) (w0 : W) :
  let y := run oracle (finish c0) w0 in
  match outcome y with
  | Returns cfg =>
      attributes cfg = attributes c0 /\
      serviceName cfg =
        (if (serviceName c0 =? "")%string then "TracedApplication" else serviceName c0) /\
      match tracer c0 with
      | Some t => tracer cfg = Some t /\ otelTracers (trace y) = []
      | None => exists t, tracer cfg = Some t /\
                          otelTracers (trace y) = [(instrumentationName, version, t)]
      end /\
      match propagator c0 with
      | Some p => propagator cfg = Some p /\ globalPropagators (trace y) = []
      | None => exists g, propagator cfg = Some g /\ globalPropagators (trace y) = [g]
      end
  | Panics v => exists (R : Type) (c : Call R), lastEvent (trace y) = Some (Ev c (Panics v))
  end.
Proof.
  unfold run, finish, defaultTracer, defaultPropagator, defaultServiceName.
  destruct c0 as [name [t|] [p|] attrs]; cbn; repeat ask;
    try (do 2 eexists; reflexivity);
    destruct (name =? "")%string; cbn; repeat split; eauto.
Qed.

(** The construction returns when the two otel globals answer. *)
Lemma finish_returns (c0 : traceConfig) (w0 : W) :
  (forall w, exists t w1,
     oracle (COtelTracer instrumentationName version) w = (Returns t, w1)) ->
  (forall w, exists g w1, oracle CGetTextMapPropagator w = (Returns g, w1)) ->
  exists cfg, outcome (run oracle (finish c0) w0) = Returns cfg.
Proof.
  intros HT HG.
  unfold run, finish, defaultTracer, defaultPropagator.
  destruct c0 as [name [t|] [p|] attrs]; cbn.
  - eexists; reflexivity.
  - destruct (HG w0) as (g & w1 & ->). cbn. eexists; reflexivity.
  - destruct (HT w0) as (t & w1 & ->). cbn. eexists; reflexivity.
  - destruct (HT w0) as (t & w1 & ->). cbn.
    destruct (HG w1) as (g & w2 & ->). cbn. eexists; reflexivity.
Qed.

(** The service name has no part in the rest of the construction. *)
Lemma finish_frame (c1 c2 : traceConfig) (w0 : W) :
  tracer c1 = tracer c2 -> propagator c1 = propagator c2 ->
  attributes c1 = attributes c2 ->
  let y1 := run oracle (finish c1) w0 in
  let y2 := run oracle (finish c2) w0 in
  trace y1 = trace y2 /\ world y1 = world y2 /\
  match outcome y1, outcome y2 with
  | Returns cfg1, Returns cfg2 =>
      tracer cfg1 = tracer cfg2 /\ propagator cfg1 = propagator cfg2 /\
      attributes cfg1 = attributes cfg2
  | Panics v1, Panics v2 => v1 = v2
  | _, _ => False
  end.
Proof.
  destruct c1 as [n1 t1 p1 a1], c2 as [n2 t2 p2 a2]. simpl.
  intros <- <- <-.
  unfold run, finish, defaultTracer, defaultPropagator, defaultServiceName.
  destruct t1, p1; cbn; repeat ask; repeat split;
    destruct (n1 =? "")%string, (n2 =? "")%string; cbn; repeat split.
Qed.

(** The handler reads three fields of the configuration only. *)
Lemma fn_frame (c1 c2 : traceConfig) :
  tracer c1 = tracer c2 -> propagator c1 = propagator c2 ->
  attributes c1 = attributes c2 ->
  forall next w r, fn c1 next w r = fn c2 next w r.
Proof.
  destruct c1, c2. simpl. intros <- <- <- next w r. reflexivity.
Qed.

Lemma newConfig_returns (opt : list TraceOption) (w0 : W) :
  Forall (fun o => o <> None) opt ->
  (forall w, exists t w1,
     oracle (COtelTracer instrumentationName version) w = (Returns t, w1)) ->
  (forall w, exists g w1, oracle CGetTextMapPropagator w = (Returns g, w1)) ->
  exists cfg, outcome (run oracle (newConfig opt) w0) = Returns cfg.
Proof.
  intros H HT HG. rewrite (newConfig_finish H). now apply finish_returns.
Qed.

Lemma withConfigured_attributes (config : traceConfig) (opts : list SpanStartOption) :
  withConfigured config opts =
    opts ++ match attributes config with
            | [] => []
            | _ :: _ => [trace_WithAttributes (attributes config)]
            end.
Proof.
  unfold withConfigured. destruct (attributes config); simpl;
    [now rewrite app_nil_r | reflexivity].
Qed.


(** C5: after the construction, for every list of options: with no
    [WithTracer] among them the tracer is the one [otel.Tracer] returned for
    the name "github.com/vincentfree/opentelemetry/otelmiddleware" and the
    instrumentation version "0.1.0"; with no [WithPropagator] the propagator
    is the one [otel.GetTextMapPropagator()] returned; an empty service name
    has become "TracedApplication"; and what the options did set (other than
    nil or the empty string) is kept.  The construction ends otherwise with
    the panic of its last call only. *)
Theorem defaults_after_construction :
  forall (l : list Setting) (w0 : W),
    let c0 := applied (map option_of l) emptyConfig in
    let y := run oracle (newConfig (map option_of l)) w0 in
    match outcome y with
    | Returns cfg =>
        (lastSetting tracerSetting l = None ->
         exists t, tracer cfg = Some t /\
                   otelTracers (trace y) =
                     [("github.com/vincentfree/opentelemetry/otelmiddleware",
                       "0.1.0", t)]) /\
        (lastSetting propagatorSetting l = None ->
         exists g, propagator cfg = Some g /\ globalPropagators (trace y) = [g]) /\
        (serviceName c0 = "" -> serviceName cfg = "TracedApplication") /\
        (forall t, tracer c0 = Some t ->
                   tracer cfg = Some t /\ otelTracers (trace y) = []) /\
        (forall p, propagator c0 = Some p ->
                   propagator cfg = Some p /\ globalPropagators (trace y) = []) /\
        (serviceName c0 <> "" -> serviceName cfg = serviceName c0) /\
        attributes cfg = attributes c0
    | Panics v =>
        exists (R : Type) (c : Call R), lastEvent (trace y) = Some (Ev c (Panics v))
    end.
Proof.
  intros l w0 c0 y. subst y.
  rewrite newConfig_finish by apply option_of_not_nil. fold c0.
  pose proof (finish_run c0 w0) as Hrun. cbv zeta in Hrun.
  destruct (outcome (run oracle (finish c0) w0)) as [cfg|v]; [|exact Hrun].
  destruct Hrun as (Hattr & Hname & Htr & Hpr).
  assert (Ht0 : lastSetting tracerSetting l = None -> tracer c0 = None).
  { intros E. unfold c0. now rewrite applied_tracer, E. }
  assert (Hp0 : lastSetting propagatorSetting l = None -> propagator c0 = None).
  { intros E. unfold c0. now rewrite applied_propagator, E. }
  repeat split.
  - intros E. rewrite (Ht0 E) in Htr. exact Htr.
  - intros E. rewrite (Hp0 E) in Hpr. exact Hpr.
  - intros E. now rewrite Hname, E.
  - rewrite H in Htr. apply Htr.
  - rewrite H in Htr. apply Htr.
  - rewrite H in Hpr. apply Hpr.
  - rewrite H in Hpr. apply Hpr.
  - intros E. rewrite Hname. apply String.eqb_neq in E. now rewrite E.
  - exact Hattr.
Qed.

(** C7: [WithServiceName] stores the name and touches no other field; the
    handler is the same program for any two configurations that agree on the
    tracer, the propagator and the attributes; so constructing with or
    without a [WithServiceName] among the options makes the same calls,
    leaves the same world and gives handlers that are the same program: no
    call, and so no span attribute, depends on the service name.  A non-empty
    name that no later option replaces is the one the configuration holds. *)
Theorem service_name_never_attached :
  (forall name c,
     serviceName (effect (WithServiceName name) c) = name /\
     tracer (effect (WithServiceName name) c) = tracer c /\
     propagator (effect (WithServiceName name) c) = propagator c /\
     attributes (effect (WithServiceName name) c) = attributes c) /\
  (forall c1 c2,
     tracer c1 = tracer c2 -> propagator c1 = propagator c2 ->
     attributes c1 = attributes c2 ->
     forall next w r, fn c1 next w r = fn c2 next w r) /\
  (forall before name after w0,
     let y1 := run oracle
                 (newConfig (map option_of (before ++ SetServiceName name :: after))) w0 in
     let y2 := run oracle (newConfig (map option_of (before ++ after))) w0 in
     trace y1 = trace y2 /\ world y1 = world y2 /\
     match outcome y1, outcome y2 with
     | Returns cfg1, Returns cfg2 =>
         (lastSetting serviceNameSetting after = None -> name <> "" ->
          serviceName cfg1 = name) /\
         (forall next w r, fn cfg1 next w r = fn cfg2 next w r) /\
         (forall next w r w1,
            run oracle (fn cfg1 next w r) w1 = run oracle (fn cfg2 next w r) w1)
     | Panics v1, Panics v2 => v1 = v2
     | _, _ => False
     end).
Proof.
  split; [now intros name c|]. split; [exact fn_frame|].
  intros before name after w0 y1 y2. subst y1 y2.
  rewrite !newConfig_finish by apply option_of_not_nil.
  set (c1 := applied (map option_of (before ++ SetServiceName name :: after)) emptyConfig).
  set (c2 := applied (map option_of (before ++ after)) emptyConfig).
  assert (Ht : tracer c1 = tracer c2).
  { unfold c1, c2. rewrite !applied_tracer. now rewrite lastSetting_skip. }
  assert (Hp : propagator c1 = propagator c2).
  { unfold c1, c2. rewrite !applied_propagator. now rewrite lastSetting_skip. }
  assert (Ha : attributes c1 = attributes c2).
  { unfold c1, c2. rewrite !applied_attributes. now rewrite lastSetting_skip. }
  pose proof (finish_frame c1 c2 w0 Ht Hp Ha) as (Htrace & Hworld & Hout).
  pose proof (finish_run c1 w0) as Hrun. cbv zeta in Hrun.
  split; [exact Htrace|]. split; [exact Hworld|].
  destruct (outcome (run oracle (finish c1) w0)) as [cfg1|v1],
           (outcome (run oracle (finish c2) w0)) as [cfg2|v2]; try exact Hout.
  destruct Hout as (Ht' & Hp' & Ha'). destruct Hrun as (_ & Hname & _).
  split; [|split].
  - intros Hafter Hne. rewrite Hname. unfold c1.
    rewrite applied_serviceName, lastSetting_app. simpl. rewrite Hafter.
    apply String.eqb_neq in Hne. now rewrite Hne.
  - now apply fn_frame.
  - intros next w r w1. now rewrite (fn_frame cfg1 cfg2 Ht' Hp' Ha').
Qed.

(** C8: [Trace(next)] makes the calls of [TraceWithOptions()] and returns
    what [TraceWithOptions()] returns, applied to [next]; and it is the
    middleware with all defaults of the specification: the same calls, the
    same world and the same handler. *)
Theorem Trace_is_TraceWithOptions_without_options :
  forall (next : Handler) (w0 : W),
    run oracle (Trace next) w0 =
      mapRun (fun wrap : Handler -> HandlerFunc => wrap next)
             (run oracle (TraceWithOptions []) w0) /\
    run oracle (Trace next) w0 = run oracle (Trace_spec next) w0.
Proof.
  intros next w0. split; [apply run_Trace|].
  unfold run, Trace, TraceWithOptions, newConfig, Trace_spec,
    defaultTracer, defaultPropagator, defaultServiceName,
    instrumentationName, version.
  cbn. repeat ask; reflexivity.
Qed.

(** C2: whatever the options, [Extract] is called on the propagator of the
    configuration, which is the argument of the last [WithPropagator] when
    that is not nil and otherwise what [otel.GetTextMapPropagator()] returned
    at construction; and every [Inject] into the headers of the request is
    called on what [otel.GetTextMapPropagator()] returns during the request,
    never on the configured propagator as such. *)
Theorem extract_configured_inject_global :
  forall (l : list Setting) (w0 : W),
    let y := run oracle (TraceWithOptions (map option_of l)) w0 in
    match outcome y with
    | Returns wrap =>
        exists p,
          match configuredPropagator l with
          | Some q => p = q /\ globalPropagators (trace y) = []
          | None => globalPropagators (trace y) = [p]
          end /\
          forall next w r w1,
            let x := run oracle (wrap next w r) w1 in
            extractCalls (trace x) = [(p, ReqContext r, ReqHeader r)] /\
            map (fun c => fst (fst c)) (injectCalls (trace x)) =
              globalPropagators (trace x) /\
            Forall (fun c => snd c = ReqHeader r) (injectCalls (trace x))
    | Panics v =>
        exists (R : Type) (c : Call R), lastEvent (trace y) = Some (Ev c (Panics v))
    end.
Proof.
  intros l w0 y. subst y.
  rewrite run_TraceWithOptions, newConfig_finish by apply option_of_not_nil.
  set (c0 := applied (map option_of l) emptyConfig).
  pose proof (finish_run c0 w0) as Hrun. cbv zeta in Hrun.
  assert (Hp0 : propagator c0 = configuredPropagator l).
  { unfold c0, configuredPropagator. rewrite applied_propagator.
    now destruct (lastSetting propagatorSetting l) as [[q|]|]. }
  unfold mapRun. unfold outcome at 1. cbn [fst snd trace].
  destruct (outcome (run oracle (finish c0) w0)) as [cfg|v]; cbn [mapReply];
    [|exact Hrun].
  destruct Hrun as (_ & _ & _ & Hpr). rewrite Hp0 in Hpr.
  assert (Hcfg : exists p, propagator cfg = Some p /\
            match configuredPropagator l with
            | Some q => p = q /\ globalPropagators (trace (run oracle (finish c0) w0)) = []
            | None => globalPropagators (trace (run oracle (finish c0) w0)) = [p]
            end).
  { destruct (configuredPropagator l) as [q|].
    - exists q. destruct Hpr. auto.
    - destruct Hpr as (g & ? & ?). exists g. auto. }
  destruct Hcfg as (p & Hp & Hconf). exists p. split; [exact Hconf|].
  intros next w r w1. cbv zeta.
  pose proof (fn_propagators oracle cfg next w r w1) as (HE & HI & HH).
  rewrite Hp in HE. auto.
Qed.

End Construction.

(** ** The theorems at work in the concrete environment *)

Section Runs.
Import Demo.

(** A request to the root path, served with the defaults. *)
Example root_request_trace :
  map (@startName _) (startCalls (trace (handled config (request "GET" "/") quiet)))
    = ["GET /HTTP/1.1 GET /"] /\
  endCalls (trace (handled config (request "GET" "/") quiet)) = [7%nat] /\
  setAttributesCalls (trace (handled config (request "GET" "/") quiet))
    = [(7%nat, [("http.status_code", INT64 200)])].
Proof. repeat split. Qed.

Lemma span_name_of_root_and_path_witness :
  (Forall (fun c => startName c = "GET /HTTP/1.1 GET /")
          (startCalls (trace (handled config (request "GET" "/") quiet))) /\
   "GET /HTTP/1.1 GET /" <> "HTTP/1.1 GET /") /\
  Forall (fun c => startName c = "GET /foo/bar")
         (startCalls (trace (handled config (request "GET" "/foo/bar") quiet))).
Proof.
  split.
  - exact (proj1 (span_name_of_root_and_path oracle config "next" tt
                    (request "GET" "/") quiet) eq_refl).
  - exact (proj2 (span_name_of_root_and_path oracle config "next" tt
                    (request "GET" "/foo/bar") quiet) eq_refl).
Defined.

Lemma extractRoute_partial_witness :
  extractRoute "/foo" = Returns "foo" /\
  outcome (handled config (request "GET" "") quiet)
    = Panics (SliceBoundsOutOfRange 1 0) /\
  startCalls (trace (handled config (request "GET" "") quiet)) = [].
Proof.
  pose proof (extractRoute_partial oracle) as (H1 & _ & H3).
  specialize (H3 config "next" tt (request "GET" "") quiet eq_refl).
  cbv zeta in H3. destruct H3 as (_ & Hs & _ & Hp).
  split; [|split].
  - destruct (H1 "/foo" (le_n_S _ _ (Nat.le_0_l _))) as (c & rest & E & ->).
    now injection E as _ <-.
  - exact (Hp "global" 0%nat quiet eq_refl eq_refl).
  - exact Hs.
Defined.

Definition routeAttribute (route : string) : string * AttrValue :=
  ("http.route", STRING route).

Lemma route_attribute_made (serverName route : string) (req : Request) :
  route <> "" ->
  In (routeAttribute route)
     (HTTPServerAttributesFromHTTPRequest serverName route req).
Proof.
  intros H. simpl. right. right. apply in_or_app. right.
  unfold nonEmpty. apply String.eqb_neq in H. rewrite H. now left.
Qed.

Lemma query_string_in_span_name_and_route_witness :
  startCalls (trace (handled config (request "GET" "/foo?x=1") quiet))
    = [("github.com/vincentfree/opentelemetry/otelmiddleware@0.1.0", 0%nat,
        "GET /foo?x=1",
        [trace_WithAttributes [("net.transport", STRING "tcp")];
         trace_WithAttributes [];
         trace_WithAttributes [("http.method", STRING "GET");
                               ("http.target", STRING "/foo?x=1");
                               ("http.server_name", STRING "example.org");
                               ("http.route", STRING "foo?x=1")];
         trace_WithAttributes [];
         trace_WithAttributes [("telemetry.sdk.language", STRING "go")];
         trace_WithSpanKind SpanKindServer])] /\
  Forall (fun s => exists kvs,
            In (trace_WithAttributes kvs) (startOptions s) /\
            In (routeAttribute "foo?x=1") kvs)
         (startCalls (trace (handled config (request "GET" "/foo?x=1") quiet))).
Proof.
  split.
  - exact (proj1 (query_string_in_span_name_and_route oracle config "next" tt
                    (request "GET" "/foo?x=1") quiet "foo" "x=1" eq_refl)
                 "global" "github.com/vincentfree/opentelemetry/otelmiddleware@0.1.0"
                 0%nat quiet eq_refl eq_refl eq_refl).
  - exact (proj2 (proj2 (query_string_in_span_name_and_route oracle config "next" tt
                           (request "GET" "/foo?x=1") quiet "foo" "x=1" eq_refl))
                 routeAttribute route_attribute_made).
Defined.

(** The query string reaches the name and the route attribute of the span. *)
Example query_request_trace :
  map (@startName _)
      (startCalls (trace (handled config (request "GET" "/foo?x=1") quiet)))
    = ["GET /foo?x=1"] /\
  Exists (fun s => In (trace_WithAttributes
                         [("http.method", STRING "GET");
                          ("http.target", STRING "/foo?x=1");
                          ("http.server_name", STRING "example.org");
                          ("http.route", STRING "foo?x=1")])
                      (startOptions s))
         (startCalls (trace (handled config (request "GET" "/foo?x=1") quiet))).
Proof.
  split; [reflexivity|]. constructor. simpl. auto.
Qed.

(** The downstream handler panics: [End] is the last call and the panic goes on. *)
Lemma span_ended_exactly_once_witness :
  endCalls (trace (handled config (request "GET" "/foo") failing))
    = startedSpans (trace (handled config (request "GET" "/foo") failing)) /\
  startedSpans (trace (handled config (request "GET" "/foo") failing)) = [7%nat] /\
  lastEvent (trace (handled config (request "GET" "/foo") failing))
    = Some (Ev (CEnd 7%nat) (Returns tt)) /\
  outcome (handled config (request "GET" "/foo") failing) = Panics (Raised "boom").
Proof.
  split.
  - exact (proj1 (span_ended_exactly_once oracle config
                    "next" tt (request "GET" "/foo") failing)).
  - repeat split.
Defined.

Lemma status_attribute_iff_recording_witness :
  (exists code,
     setAttributesCalls (trace (handled config (request "GET" "/foo") quiet))
       = [(7%nat, HTTPAttributesFromHTTPStatusCode code)]) /\
  setAttributesCalls (trace (handled config (request "GET" "/foo") notRecording)) = [].
Proof.
  split.
  - pose proof (status_attribute_iff_recording oracle config
                  "next" tt (request "GET" "/foo") quiet) as H.
    cbv zeta in H. cbn in H.
    destruct H as (s & wr & r' & Hs & _ & _ &
                   [(code & a & b & _ & H) | [(b & _ & H & _) | [(v & b & _ & H) | (v & b & _ & H)]]]);
      try discriminate H.
    injection Hs as <-. exists code. exact H.
  - pose proof (status_attribute_iff_recording oracle config
                  "next" tt (request "GET" "/foo") notRecording) as H.
    cbv zeta in H. cbn in H.
    destruct H as (s & wr & r' & _ & _ & _ &
                   [(code & a & b & _ & H) | [(b & _ & H & _) | [(v & b & _ & H) | (v & b & _ & H)]]]);
      try discriminate H; exact H.
Defined.

(** The status the downstream handler left is the one set on the span, and a
    span that is not recording gets none. *)
Example status_request_trace :
  setAttributesCalls (trace (handled config (request "GET" "/foo") quiet))
    = [(7%nat, [("http.status_code", INT64 200)])] /\
  recordingReplies (trace (handled config (request "GET" "/foo") notRecording))
    = [(7%nat, false)] /\
  statusReplies (trace (handled config (request "GET" "/foo") notRecording)) = [].
Proof. repeat split. Qed.

(** A custom propagator extracts; the global one injects. *)
Lemma extract_configured_inject_global_witness :
  extractCalls (trace (handled custom (request "GET" "/foo") quiet))
    = [("b3", 0%nat, [])] /\
  map (fun c => fst (fst c))
      (injectCalls (trace (handled custom (request "GET" "/foo") quiet)))
    = ["global"].
Proof.
  pose proof (extract_configured_inject_global oracle
                [SetPropagator (Some "b3"); SetServiceName "shop"] quiet) as H.
  cbv zeta in H. cbn in H. destruct H as (p & (-> & _) & H).
  destruct (H "next" tt (request "GET" "/foo") quiet) as (HE & HI & _).
  split; [exact HE | exact HI].
Defined.


(** Two attribute sets configured: the span is started with the second only. *)
Example attributes_request_trace :
  map (fun s => last (startOptions s) (trace_WithSpanKind SpanKindServer))
      (startCalls (snd (serve [WithAttributes [("a", STRING "1")];
                               WithAttributes [("b", STRING "2")]]
                              (request "GET" "/foo") quiet)))
    = [trace_WithAttributes [("b", STRING "2")]] /\
  map (fun s => List.length (startOptions s))
      (startCalls (snd (serve [WithAttributes [("a", STRING "1")];
                               WithAttributes [("b", STRING "2")]]
                              (request "GET" "/foo") quiet)))
    = [7%nat].
Proof. split; reflexivity. Qed.

Lemma defaults_after_construction_witness :
  (exists t, tracer config = Some t /\
             otelTracers (trace (run oracle (newConfig []) quiet))
               = [("github.com/vincentfree/opentelemetry/otelmiddleware", "0.1.0", t)]) /\
  (exists g, propagator config = Some g /\
             globalPropagators (trace (run oracle (newConfig []) quiet)) = [g]) /\
  serviceName config = "TracedApplication".
Proof.
  pose proof (defaults_after_construction oracle [] quiet) as H.
  cbv zeta in H.
  change (outcome (run oracle (newConfig (map option_of [])) quiet))
    with (Returns config) in H.
  destruct H as (Ht & Hp & Hn & _).
  split; [exact (Ht eq_refl) | split; [exact (Hp eq_refl) | exact (Hn eq_refl)]].
Defined.

(** The defaults, and options that keep their values. *)
Example construction_outcomes :
  outcome (run oracle (newConfig []) quiet) = Returns config /\
  outcome (run oracle (newConfig [WithPropagator (Some "b3"); WithServiceName "shop"])
               quiet) = Returns custom /\
  outcome (run oracle (newConfig [WithServiceName "shop"; WithServiceName ""]) quiet)
    = Returns config /\
  outcome (run oracle (newConfig [WithTracer None; None]) quiet)
    = Panics NilDereference.
Proof. repeat split. Qed.

Lemma service_name_never_attached_witness :
  handled (mkConfig "shop" (tracer config) (propagator config) (attributes config))
          (request "GET" "/foo") quiet
    = handled config (request "GET" "/foo") quiet.
Proof.
  unfold handled.
  now rewrite (proj1 (proj2 (service_name_never_attached oracle))
                 (mkConfig "shop" (tracer config) (propagator config) (attributes config))
                 config eq_refl eq_refl eq_refl).
Defined.

Lemma Trace_is_TraceWithOptions_without_options_witness :
  run oracle (Trace "next") quiet = run oracle (Trace_spec "next") quiet.
Proof.
  exact (proj2 (Trace_is_TraceWithOptions_without_options oracle
                  "next" quiet)).
Defined.

(** [Trace(next)] is the handler of the default configuration. *)
Example Trace_outcome :
  outcome (run oracle (Trace "next") quiet) = Returns (fn config "next") /\
  map (fun e => match e with Ev c _ => match c with
                                        | COtelTracer n v => (n ++ " " ++ v)%string
                                        | CGetTextMapPropagator => "GetTextMapPropagator"
                                        | _ => "other"
                                        end end)
      (trace (run oracle (Trace "next") quiet))
    = ["github.com/vincentfree/opentelemetry/otelmiddleware 0.1.0";
       "GetTextMapPropagator"].
Proof. split; reflexivity. Qed.

End Runs.

(** * Further properties of the middleware *)

Section Further.
Context {T : OtelTypes} {SC : Semconv}.
Variable W : Type.
Variable oracle : forall R : Type, Call R -> W -> Reply R * W.

Local Arguments nameSpan : simpl never.
Local Arguments standardOptions : simpl never.
Local Arguments withConfigured : simpl never.
Local Arguments extractRoute : simpl never.

(** ** More readings of a trace *)

(** The contexts [Extract] returned. *)
Definition extractedContexts : list Event -> list GoContext :=
  pick (fun R c =>
          match c in Call R0 return Reply R0 -> list GoContext with
          | CExtract _ _ _ => fun rep => match rep with
                                         | Returns ctx => [ctx]
                                         | Panics _ => []
                                         end
          | _ => fun _ => []
          end).

(** The contexts [tracer.Start] returned. *)
Definition startedContexts : list Event -> list GoContext :=
  pick (fun R c =>
          match c in Call R0 return Reply R0 -> list GoContext with
          | CStart _ _ _ _ => fun rep => match rep with
                                         | Returns (ctx, _) => [ctx]
                                         | Panics _ => []
                                         end
          | _ => fun _ => []
          end).

(** The header maps as [Inject] left them. *)
Definition injectedHeaders : list Event -> list Header :=
  pick (fun R c =>
          match c in Call R0 return Reply R0 -> list Header with
          | CInject _ _ _ => fun rep => match rep with
                                        | Returns h => [h]
                                        | Panics _ => []
                                        end
          | _ => fun _ => []
          end).

(** The panics the calls of a trace answered with, in order. *)
Definition panicsOf : list Event -> list PanicValue :=
  pick (fun R _ rep => match rep with
                       | Returns _ => []
                       | Panics v => [v]
                       end).

(** The last panic a call of the trace answered with. *)
Definition lastPanic (log : list Event) : option PanicValue :=
  last (map Some (panicsOf log)) None.

(** Which collaborator function a call is. *)
Inductive CallKind : Type :=
| KOtelTracer | KGetTextMapPropagator | KExtract | KInject | KStart | KEnd
| KIsRecording | KSetAttributes | KNewWrapResponseWriter | KStatus | KServeHTTP.

Definition kindOf (e : Event) : CallKind :=
  match e with
  | Ev c _ =>
      match c with
      | COtelTracer _ _ => KOtelTracer
      | CGetTextMapPropagator => KGetTextMapPropagator
      | CExtract _ _ _ => KExtract
      | CInject _ _ _ => KInject
      | CStart _ _ _ _ => KStart
      | CEnd _ => KEnd
      | CIsRecording _ => KIsRecording
      | CSetAttributes _ _ => KSetAttributes
      | CNewWrapResponseWriter _ _ => KNewWrapResponseWriter
      | CStatus _ => KStatus
      | CServeHTTP _ _ _ => KServeHTTP
      end
  end.

(** The calls of the handler's body in the order of tracing.go:70-113. *)
Definition bodyOrder : list CallKind :=
  [KExtract; KStart; KGetTextMapPropagator; KInject; KNewWrapResponseWriter;
   KServeHTTP; KIsRecording; KStatus; KSetAttributes].

(** The tracer and the context a [tracer.Start] call was given. *)
Definition startTracer (c : Tracer * GoContext * string * list SpanStartOption) : Tracer :=
  fst (fst (fst c)).
Definition startContext (c : Tracer * GoContext * string * list SpanStartOption)
  : GoContext :=
  snd (fst (fst c)).

Ltac ask :=
  match goal with
  | |- context [@oracle ?R ?c ?w] =>
      let rep := fresh "rep" in
      let w1 := fresh "w" in
      let E := fresh "E" in
      destruct (@oracle R c w) as [rep w1] eqn:E; destruct rep; cbn
  end.

Ltac crack :=
  match goal with
  | |- context [extractRoute ?u] =>
      let E := fresh "Route" in destruct (extractRoute u) eqn:E; cbn
  | |- context [match ?x with (_, _) => _ end] => is_var x; destruct x; cbn
  | |- context [if ?b then _ else _] => is_var b; destruct b; cbn
  end.

Ltac walk := repeat (ask || crack).

Ltac enter config :=
  unfold run, fn;
  destruct (propagator config) as [?p|] eqn:?Hp;
  destruct (tracer config) as [?t|] eqn:?Ht; cbn.

Ltac units := repeat match goal with u : unit |- _ => destruct u end.

(** ** The handler *)

(** X1: the calls of the handler always come in the order of its body:
    the kinds of the calls of a run are a prefix of Extract, Start,
    GetTextMapPropagator, Inject, NewWrapResponseWriter, ServeHTTP,
    IsRecording, Status, SetAttributes, followed by End when a span was
    started. *)
Theorem handler_call_order :
  forall (config : traceConfig) (next : Handler) (w : ResponseWriter)
         (r : Request) (w0 : W),
    let x := run oracle (fn config next w r) w0 in
    exists n, map kindOf (trace x) =
              firstn n bodyOrder ++ map (fun _ => KEnd) (startedSpans (trace x)).
Proof.
  intros config next w r w0. enter config; walk;
    first [ exists 0%nat; reflexivity | exists 1%nat; reflexivity
          | exists 2%nat; reflexivity | exists 3%nat; reflexivity
          | exists 4%nat; reflexivity | exists 5%nat; reflexivity
          | exists 6%nat; reflexivity | exists 7%nat; reflexivity
          | exists 8%nat; reflexivity | exists 9%nat; reflexivity ].
Qed.

(** X2: the handler never recovers a panic: when a call panicked, the
    handler leaves with the last panic raised; when none did, it returns,
    unless the configuration holds a nil tracer or propagator or the
    request URI is empty, where the handler's own runtime error ends it. *)
Theorem handler_never_recovers :
  forall (config : traceConfig) (next : Handler) (w : ResponseWriter)
         (r : Request) (w0 : W),
    let x := run oracle (fn config next w r) w0 in
    match lastPanic (trace x) with
    | Some v => outcome x = Panics v
    | None =>
        outcome x = Returns tt \/
        (outcome x = Panics NilDereference /\
         (propagator config = None \/ tracer config = None)) \/
        (outcome x = Panics (SliceBoundsOutOfRange 1 0) /\ RequestURI r = "")
    end.
Proof.
  intros config next w r w0. enter config; walk; units;
    try reflexivity; try (left; reflexivity);
    try (right; left; split; [reflexivity | auto]);
    right; right; apply extractRoute_Panics in Route as [-> ->]; auto.
Qed.

(** X3: a handler with a tracer and a propagator, serving a non-empty
    URI, starts its span as soon as [Extract] has returned: one
    [tracer.Start] call, on the tracer of the configuration, from the context
    [Extract] returned; and when that call and
    [otel.GetTextMapPropagator()] have returned, it makes one [Inject] call,
    with the context [tracer.Start] returned and the headers of the request.
    No run starts a span from another context or tracer, or injects another
    context. *)
Theorem span_parent_is_extracted_context :
  forall (config : traceConfig) (next : Handler) (w : ResponseWriter)
         (r : Request) (w0 : W),
    let x := run oracle (fn config next w r) w0 in
    Forall (fun s => tracer config = Some (startTracer s) /\
                     extractedContexts (trace x) = [startContext s])
           (startCalls (trace x)) /\
    Forall (fun c => startedContexts (trace x) = [snd (fst c)])
           (injectCalls (trace x)) /\
    (forall p t c route ctx w1,
       propagator config = Some p -> tracer config = Some t ->
       RequestURI r = String c route ->
       oracle (CExtract p (ReqContext r) (ReqHeader r)) w0 = (Returns ctx, w1) ->
       startCalls (trace x) =
         [(t, ctx, nameSpan r route, withConfigured config (standardOptions r route))] /\
       extractedContexts (trace x) = [ctx] /\
       forall ctx1 span w2 g w3,
         oracle (CStart t ctx (nameSpan r route)
                        (withConfigured config (standardOptions r route))) w1
           = (Returns (ctx1, span), w2) ->
         oracle CGetTextMapPropagator w2 = (Returns g, w3) ->
         injectCalls (trace x) = [(g, ctx1, ReqHeader r)] /\
         startedContexts (trace x) = [ctx1]).
Proof.
  intros config next w r w0. cbv zeta. split; [|split].
  - enter config; walk; repeat constructor.
  - enter config; walk; repeat constructor.
  - intros p t c route ctx w1 Hp Ht Hu HE. split; [|split].
    + eapply fn_reaches_start; eassumption.
    + unfold run, fn. rewrite Hp, Ht, Hu, extractRoute_nonempty. cbn.
      rewrite HE. cbn. walk; reflexivity.
    + intros ctx1 span w2 g w3 HS HG. split.
      * eapply fn_reaches_inject; eassumption.
      * unfold run, fn. rewrite Hp, Ht, Hu, extractRoute_nonempty. cbn.
        rewrite HE. cbn. rewrite HS. cbn. rewrite HG. cbn. walk; reflexivity.
Qed.

(** X4: the downstream handler is called at most once, with [next], the
    wrapper [NewWrapResponseWriter] returned and a request that is the
    inbound one except for its context, which is the one [tracer.Start]
    returned, and its headers, which are as [Inject] left them. *)
Theorem downstream_request :
  forall (config : traceConfig) (next : Handler) (w : ResponseWriter)
         (r : Request) (w0 : W),
    let x := run oracle (fn config next w r) w0 in
    (List.length (serveCalls (trace x)) <= 1)%nat /\
    Forall (fun c =>
              let n := fst (fst (fst c)) in
              let wr := snd (fst (fst c)) in
              let r' := snd (fst c) in
              n = next /\
              wrappers (trace x) = [(w, ProtoMajor r, wr)] /\
              startedContexts (trace x) = [ReqContext r'] /\
              injectedHeaders (trace x) = [ReqHeader r'] /\
              Method r' = Method r /\ Proto r' = Proto r /\
              ProtoMajor r' = ProtoMajor r /\ Host r' = Host r /\
              RequestURI r' = RequestURI r /\ ReqRest r' = ReqRest r)
           (serveCalls (trace x)).
Proof.
  intros config next w r w0. enter config; walk;
    (split; [simpl; lia|]); repeat constructor.
Qed.

(** X5: the span name and the route ignore the first byte of the request
    URI, whatever it is: for a URI of one byte followed by [rest], a handler
    with a tracer and a propagator whose [Extract] returned starts exactly
    one span, named "<method> /rest", or as for the root path when [rest] is
    empty, with the options made for the route [rest]; no run starts a span
    under another name, and [rest] is the route handed to [semconv]. *)
Theorem first_byte_of_uri_is_dropped :
  forall (config : traceConfig) (next : Handler) (w : ResponseWriter)
         (r : Request) (w0 : W) (c : ascii) (rest : string),
    RequestURI r = String c rest ->
    let x := run oracle (fn config next w r) w0 in
    let name := (if (rest =? "")%string
                 then Method r ++ " /" ++ Proto r ++ " " ++ Method r ++ " /"
                 else Method r ++ " /" ++ rest)%string in
    (forall p t ctx w1,
       propagator config = Some p -> tracer config = Some t ->
       oracle (CExtract p (ReqContext r) (ReqHeader r)) w0 = (Returns ctx, w1) ->
       startCalls (trace x) =
         [(t, ctx, name, withConfigured config (standardOptions r rest))]) /\
    Forall (fun s =>
              startName s = name /\
              In (trace_WithAttributes
                    (HTTPServerAttributesFromHTTPRequest (Host r) rest r))
                 (startOptions s))
           (startCalls (trace x)).
Proof.
  intros config next w r w0 c rest Hu x name.
  assert (Hname : nameSpan r rest = name) by (unfold name; now destruct rest).
  split.
  - intros p t ctx w1 Hp Ht HE. rewrite <- Hname.
    eapply fn_reaches_start; eassumption.
  - destruct (fn_start oracle config next w r w0)
      as [H | (t & ctx & c' & route & _ & Hu' & H)];
      fold x in H; rewrite H; [constructor|].
    rewrite Hu in Hu'. injection Hu' as <- <-.
    constructor; [|constructor]. unfold startName, startOptions. simpl. split.
    + exact Hname.
    + apply standard_in_withConfigured. simpl. auto.
Qed.

(** X6: without configured attributes the span is started with the six
    standard options and nothing else, no empty attribute option being
    added; and in every case the options begin with those six, the last of
    which makes the span a server span. *)
Theorem standard_span_options :
  forall (config : traceConfig) (next : Handler) (w : ResponseWriter)
         (r : Request) (w0 : W),
    let x := run oracle (fn config next w r) w0 in
    Forall (fun s => exists route,
              firstn 6 (startOptions s) = standardOptions r route /\
              nth_error (startOptions s) 5 = Some (trace_WithSpanKind SpanKindServer) /\
              (attributes config = [] -> startOptions s = standardOptions r route) /\
              (attributes config <> [] ->
               startOptions s =
                 standardOptions r route ++ [trace_WithAttributes (attributes config)]))
           (startCalls (trace x)).
Proof.
  intros config next w r w0 x.
  destruct (fn_start oracle config next w r w0)
    as [H | (t & ctx & c' & route & _ & _ & H)];
    fold x in H; rewrite H; [constructor|].
  constructor; [|constructor]. exists route. unfold startOptions. simpl.
  rewrite withConfigured_attributes.
  destruct (attributes config) as [|kv kvs]; repeat split; try reflexivity;
    try congruence; now rewrite app_nil_r.
Qed.

End Further.

(** ** The construction *)

Section FurtherConstruction.
Context {T : OtelTypes} {SC : Semconv}.
Variable W : Type.
Variable oracle : forall R : Type, Call R -> W -> Reply R * W.

Local Arguments nameSpan : simpl never.
Local Arguments standardOptions : simpl never.
Local Arguments withConfigured : simpl never.

Lemma applyOptions_nil (before after : list TraceOption) (c : traceConfig) :
  applyOptions (before ++ None :: after) c = Panic NilDereference.
Proof.
  revert c. induction before as [|[f|] before IH]; intros c; simpl; auto.
Qed.

Lemma nil_or_not (opt : list TraceOption) :
  In None opt \/ Forall (fun o => o <> None) opt.
Proof.
  induction opt as [|[f|] opt [IH|IH]]; simpl; auto.
  right. constructor; [discriminate | exact IH].
Qed.

Lemma newConfig_nil (opt : list TraceOption) (w0 : W) :
  In None opt -> run oracle (newConfig opt) w0 = (Panics NilDereference, w0, []).
Proof.
  intros H. apply in_split in H as (before & after & ->).
  unfold newConfig. now rewrite applyOptions_nil.
Qed.

(** The configuration a construction returns is complete. *)
Lemma finish_complete (c0 : traceConfig) (w0 : W) (cfg : traceConfig) :
  outcome (run oracle (finish c0) w0) = Returns cfg ->
  tracer cfg <> None /\ propagator cfg <> None /\ serviceName cfg <> "" /\
  attributes cfg = attributes c0.
Proof.
  intros E. pose proof (finish_run oracle c0 w0) as H. cbv zeta in H.
  rewrite E in H. destruct H as (Ha & Hn & Ht & Hp).
  repeat split.
  - destruct (tracer c0); [destruct Ht as [-> _] | destruct Ht as (t & -> & _)];
      discriminate.
  - destruct (propagator c0); [destruct Hp as [-> _] | destruct Hp as (g & -> & _)];
      discriminate.
  - rewrite Hn. destruct (serviceName c0 =? "")%string eqn:En; [discriminate|].
    now apply String.eqb_neq.
  - exact Ha.
Qed.

(** With a tracer and a propagator, a non-empty URI and collaborators that
    return, the handler returns. *)
Lemma fn_returns (config : traceConfig) (next : Handler) (w : ResponseWriter)
      (r : Request) (w0 : W) p t c route :
  (forall (R : Type) (k : Call R) (w1 : W),
     exists a w2, oracle k w1 = (Returns a, w2)) ->
  propagator config = Some p -> tracer config = Some t ->
  RequestURI r = String c route ->
  let x := run oracle (fn config next w r) w0 in
  outcome x = Returns tt /\
  (map (@kindOf T) (trace x) = bodyOrder ++ [KEnd] \/
   map (@kindOf T) (trace x) = firstn 7 bodyOrder ++ [KEnd]).
Proof.
  intros Hcalm Hp Ht Hu. unfold run, fn.
  rewrite Hp, Ht, Hu, extractRoute_nonempty. cbn.
  repeat match goal with
         | |- context [@oracle ?R ?k ?w1] =>
             let a := fresh "a" in
             let w2 := fresh "w" in
             destruct (Hcalm R k w1) as (a & w2 & ->); cbn
         | |- context [match ?x with (_, _) => _ end] => is_var x; destruct x; cbn
         | |- context [if ?b then _ else _] => is_var b; destruct b; cbn
         end;
    repeat match goal with u : unit |- _ => destruct u end;
    split; auto.
Qed.

(** X7: a nil option anywhere in the list makes [TraceWithOptions] panic
    with a nil dereference before it calls anything: no otel global is read
    and the world is left as it was. *)
Theorem nil_option_panics :
  forall (opt : list TraceOption) (w0 : W),
    In None opt ->
    run oracle (TraceWithOptions opt) w0 = (Panics NilDereference, w0, []).
Proof.
  intros opt w0 H. rewrite run_TraceWithOptions, (@newConfig_nil opt w0 H).
  reflexivity.
Qed.

(** X8: a nil tracer, a nil propagator or an empty service name given last
    falls back to the default like an option never given: the tracer is what
    [otel.Tracer] returned for the fixed name and version, the propagator is
    what [otel.GetTextMapPropagator()] returned, the service name is
    "TracedApplication". *)
Theorem nil_arguments_fall_back :
  forall (l : list Setting) (w0 : W),
    let y := run oracle (newConfig (map option_of l)) w0 in
    match outcome y with
    | Returns cfg =>
        (lastSetting tracerSetting l = Some None ->
         exists t, tracer cfg = Some t /\
                   otelTracers (trace y) = [(instrumentationName, version, t)]) /\
        (lastSetting propagatorSetting l = Some None ->
         exists g, propagator cfg = Some g /\ globalPropagators (trace y) = [g]) /\
        (lastSetting serviceNameSetting l = Some "" ->
         serviceName cfg = "TracedApplication")
    | Panics v =>
        exists (R : Type) (c : Call R), lastEvent (trace y) = Some (Ev c (Panics v))
    end.
Proof.
  intros l w0 y. subst y.
  rewrite newConfig_finish by apply option_of_not_nil.
  set (c0 := applied (map option_of l) emptyConfig).
  pose proof (finish_run oracle c0 w0) as Hrun. cbv zeta in Hrun.
  destruct (outcome (run oracle (finish c0) w0)) as [cfg|v]; [|exact Hrun].
  destruct Hrun as (_ & Hname & Htr & Hpr).
  repeat split.
  - intros E. unfold c0 in Htr. rewrite applied_tracer, E in Htr. exact Htr.
  - intros E. unfold c0 in Hpr. rewrite applied_propagator, E in Hpr. exact Hpr.
  - intros E. unfold c0 in Hname. rewrite applied_serviceName, E in Hname.
    exact Hname.
Qed.

(** X9: two neighbouring options of different fields may be swapped: the
    configuration after the options is the same, and so is the whole
    construction. *)
Theorem options_of_different_fields_commute :
  forall (s1 s2 : Setting) (before after : list Setting) (c : traceConfig),
    sameField s1 s2 = false ->
    applied (map option_of (before ++ s1 :: s2 :: after)) c =
      applied (map option_of (before ++ s2 :: s1 :: after)) c /\
    TraceWithOptions (map option_of (before ++ s1 :: s2 :: after)) =
      TraceWithOptions (map option_of (before ++ s2 :: s1 :: after)).
Proof.
  intros s1 s2 before after c H.
  assert (E : forall c0,
             applied (map option_of (before ++ s1 :: s2 :: after)) c0 =
             applied (map option_of (before ++ s2 :: s1 :: after)) c0).
  { intros c0. rewrite !map_app, !applied_app. simpl. unfold applied. simpl.
    f_equal. destruct s1, s2; simpl in *; try discriminate; reflexivity. }
  split; [apply E|].
  unfold TraceWithOptions.
  now rewrite !newConfig_finish, E by apply option_of_not_nil.
Qed.

(** X10: when the options leave a tracer and a propagator that are not nil,
    the construction calls nothing: it reads no otel global, leaves the world
    as it was and returns the configuration the options made, with the
    service name defaulted. *)
Theorem configured_construction_is_silent :
  forall (l : list Setting) (w0 : W) (t : Tracer) (p : Propagator),
    lastSetting tracerSetting l = Some (Some t) ->
    lastSetting propagatorSetting l = Some (Some p) ->
    run oracle (newConfig (map option_of l)) w0 =
      (Returns (defaultServiceName (applied (map option_of l) emptyConfig)), w0, []) /\
    trace (run oracle (TraceWithOptions (map option_of l)) w0) = [] /\
    world (run oracle (TraceWithOptions (map option_of l)) w0) = w0.
Proof.
  intros l w0 t p Ht Hp.
  assert (E : run oracle (newConfig (map option_of l)) w0 =
    (Returns (defaultServiceName (applied (map option_of l) emptyConfig)), w0, [])).
  { rewrite newConfig_finish by apply option_of_not_nil.
    pose proof (applied_tracer l emptyConfig) as Et. rewrite Ht in Et.
    pose proof (applied_propagator l emptyConfig) as Ep. rewrite Hp in Ep.
    unfold run, finish, defaultTracer, defaultPropagator.
    destruct (applied (map option_of l) emptyConfig) as [n t0 p0 a].
    simpl in Et, Ep. subst t0 p0. reflexivity. }
  split; [exact E|].
  rewrite run_TraceWithOptions, E. split; reflexivity.
Qed.

(** X11: a construction returns only for a list without nil options, and
    then with a configuration whose tracer and propagator are not nil and
    whose service name is not empty, the attributes being those the options
    left; it panics only for a nil option, before any call, or with the panic
    of its last call. *)
Theorem constructed_config_complete :
  forall (opt : list TraceOption) (w0 : W),
    let y := run oracle (newConfig opt) w0 in
    match outcome y with
    | Returns cfg =>
        ~ In None opt /\
        tracer cfg <> None /\ propagator cfg <> None /\ serviceName cfg <> "" /\
        attributes cfg = attributes (applied opt emptyConfig)
    | Panics v =>
        (In None opt /\ v = NilDereference /\ trace y = []) \/
        exists (R : Type) (c : Call R), lastEvent (trace y) = Some (Ev c (Panics v))
    end.
Proof.
  intros opt w0 y. subst y. destruct (nil_or_not opt) as [H|H].
  - rewrite (@newConfig_nil opt w0 H). left. auto.
  - rewrite (newConfig_finish H).
    pose proof (finish_run oracle (applied opt emptyConfig) w0) as Hrun.
    cbv zeta in Hrun.
    destruct (outcome (run oracle (finish (applied opt emptyConfig)) w0))
      as [cfg|v] eqn:E; [|right; exact Hrun].
    split; [|now apply (finish_complete _ w0)].
    intros Hin. rewrite Forall_forall in H. now apply (H None Hin).
Qed.


End FurtherConstruction.

(** ** The further properties at work in the concrete environment *)

Section FurtherRuns.
Import Demo.

(** The concrete environment with a downstream handler that always answers
    200: no call panics. *)
Definition steady (R : Type) (c : Call R) (w : World) : Reply R * World :=
  oracle c (mkWorld (nextSpan w) (recording w) (Returns 200%Z) (globalPropagator w)).

Lemma steady_returns (R : Type) (k : Call R) (w : World) :
  exists a w1, steady k w = (Returns a, w1).
Proof. destruct k; simpl; eauto. Qed.

(** "OPTIONS *" is named like a request to the root path. *)
Lemma first_byte_of_uri_is_dropped_witness :
  map (@startName _)
      (startCalls (trace (handled config (request "OPTIONS" "*") quiet)))
    = ["OPTIONS /HTTP/1.1 OPTIONS /"] /\
  Forall (fun s =>
            startName s = "OPTIONS /HTTP/1.1 OPTIONS /" /\
            In (trace_WithAttributes
                  (HTTPServerAttributesFromHTTPRequest
                     "example.org" "" (request "OPTIONS" "*")))
               (startOptions s))
         (startCalls (trace (handled config (request "OPTIONS" "*") quiet))).
Proof.
  split.
  - exact (f_equal (map (@startName _))
             (proj1 (first_byte_of_uri_is_dropped oracle config "next" tt
                       (request "OPTIONS" "*") quiet eq_refl)
                    "global" "github.com/vincentfree/opentelemetry/otelmiddleware@0.1.0"
                    0%nat quiet eq_refl eq_refl eq_refl)).
  - exact (proj2 (first_byte_of_uri_is_dropped oracle config "next" tt
                    (request "OPTIONS" "*") quiet eq_refl)).
Defined.

(** The concrete environment with an inbound trace context: [Extract] answers
    with context 40 whatever the request carries. *)
Definition traced (R : Type) (c : Call R) (w : World) : Reply R * World :=
  match c in Call R0 return Reply R0 * World with
  | CExtract _ _ _ => (Returns 40%nat, w)
  | c0 => oracle c0 w
  end.

(** The span is started from the extracted context 40, and the context 41
    that [tracer.Start] returned is injected on the global propagator. *)
Lemma span_parent_is_extracted_context_witness :
  map (fun s => (startTracer s, startContext s))
      (startCalls (trace (run traced (fn custom "next" tt (request "GET" "/foo")) quiet)))
    = [("github.com/vincentfree/opentelemetry/otelmiddleware@0.1.0", 40%nat)] /\
  injectCalls (trace (run traced (fn custom "next" tt (request "GET" "/foo")) quiet))
    = [("global", 41%nat, [])].
Proof.
  pose proof (proj2 (proj2 (span_parent_is_extracted_context traced custom "next" tt
                              (request "GET" "/foo") quiet))
                "b3" "github.com/vincentfree/opentelemetry/otelmiddleware@0.1.0"
                "/"%char "foo" 40%nat quiet eq_refl eq_refl eq_refl eq_refl)
    as (Hs & _ & Hi).
  split.
  - exact (f_equal (map (fun s => (startTracer s, startContext s))) Hs).
  - exact (proj1 (Hi 41%nat 7%nat (mkWorld 8 true (Returns 200%Z) "global")
                     "global" (mkWorld 8 true (Returns 200%Z) "global")
                     eq_refl eq_refl)).
Defined.

Lemma nil_option_panics_witness :
  run oracle (TraceWithOptions [WithTracer None; None; WithServiceName "shop"]) quiet
    = (Panics NilDereference, quiet, []).
Proof.
  exact (nil_option_panics oracle [WithTracer None; None; WithServiceName "shop"]
           quiet (or_intror (or_introl eq_refl))).
Defined.

Lemma options_of_different_fields_commute_witness :
  applied (map option_of ([] ++ [SetServiceName "shop"; SetPropagator (Some "b3")]))
          emptyConfig
    = applied (map option_of ([] ++ [SetPropagator (Some "b3"); SetServiceName "shop"]))
              emptyConfig.
Proof.
  exact (proj1 (options_of_different_fields_commute
                  (SetServiceName "shop") (SetPropagator (Some "b3")) [] []
                  emptyConfig eq_refl)).
Defined.

Lemma configured_construction_is_silent_witness :
  trace (run oracle (TraceWithOptions
           (map option_of [SetTracer (Some "mine"); SetPropagator (Some "b3")])) failing)
    = [] /\
  world (run oracle (TraceWithOptions
           (map option_of [SetTracer (Some "mine"); SetPropagator (Some "b3")])) failing)
    = failing.
Proof.
  exact (proj2 (configured_construction_is_silent oracle
                  [SetTracer (Some "mine"); SetPropagator (Some "b3")] failing
                  eq_refl eq_refl)).
Defined.

Lemma shop_has_no_nil_option : ~ In None [@WithServiceName types "shop"].
Proof. intros [H|[]]. discriminate H. Qed.


(** The calls of a request whose downstream handler panics, of one whose
    span is not recording, and the panic the handler leaves with. *)
Example call_orders :
  map (@kindOf _) (trace (handled config (request "GET" "/foo") failing))
    = [KExtract; KStart; KGetTextMapPropagator; KInject; KNewWrapResponseWriter;
       KServeHTTP; KEnd] /\
  map (@kindOf _) (trace (handled config (request "GET" "/foo") notRecording))
    = [KExtract; KStart; KGetTextMapPropagator; KInject; KNewWrapResponseWriter;
       KServeHTTP; KIsRecording; KEnd] /\
  lastPanic (trace (handled config (request "GET" "/foo") failing))
    = Some (Raised "boom") /\
  outcome (handled config (request "GET" "/foo") failing) = Panics (Raised "boom").
Proof. repeat split. Qed.

(** What the downstream handler is given. *)
Example downstream_request_trace :
  map (fun c => snd (fst c))
      (serveCalls (trace (handled config (request "GET" "/foo") quiet)))
    = [mkRequest "GET" "HTTP/1.1" 1 "example.org" "/foo"
                 [("traceparent", "global")] 1%nat tt].
Proof. reflexivity. Qed.

End FurtherRuns.
